(** * Herbie: [herbie/fast.py] — FastHerbie and Herbie_latest

    A shallow embedding of the bulk fan-out/fan-in layer of Herbie
    ([_validate_fxx], [_validate_DATES], [Herbie_latest],
    [FastHerbie.__init__], [FastHerbie.df], [FastHerbie.inventory],
    [FastHerbie.download], [FastHerbie.xarray]) and the properties of its
    batch resolution.

    Conventions
    - Python values reaching the entry points are the inductive [pyval].
    - A raised exception is the left injection of [exn + A].
    - The module logger is a chronological list of [log_record]s threaded
      through the monad [M].
    - The thread pool's completion order is an explicit schedule
      ([as_completed]); every permutation of the futures is the image of
      some schedule ([as_completed_complete]).
    - [herbie.core.Herbie], [pandas.to_datetime], the per-object
      [download], [inventory] and [xarray] methods and the xarray library
      ([combine_nested], [squeeze], the coordinates of a dataset) live
      outside this file of the repository and are section variables. *)

From Stdlib Require Import ZArith List String Ascii Bool Lia Permutation Sorted.
From Stdlib Require Import DecimalString.
Import ListNotations.
Local Open Scope string_scope.
Local Open Scope list_scope.
Local Open Scope Z_scope.
Set Warnings "-register-all".

(** ** Python values *)

(** The dynamic values the entry points can receive.  Timestamps
    ([datetime], [pd.Timestamp]) are nanoseconds since the epoch; a float
    is kept as its binary64 bit pattern (no arithmetic is done on it). *)
Inductive pyval : Type :=
| PyNone
| PyBool (b : bool)
| PyInt (n : Z)
| PyFloat (bits : Z)
| PyStr (s : string)
| PyDatetime (t : Z)
| PyList (l : list pyval)
| PyTuple (l : list pyval)
| PyRange (start stop step : Z)
| PyDatetimeIndex (l : list Z).

(** [isinstance(v, int)]: [bool] is a subclass of [int]. *)
Definition isinstance_int (v : pyval) : bool :=
  match v with PyInt _ | PyBool _ => true | _ => false end.

(** [isinstance(v, str)] *)
Definition isinstance_str (v : pyval) : bool :=
  match v with PyStr _ => true | _ => false end.

(** [isinstance(v, (list, range))] *)
Definition isinstance_list_range (v : pyval) : bool :=
  match v with PyList _ | PyRange _ _ _ => true | _ => false end.

(** [isinstance(v, (list, pd.DatetimeIndex))] *)
Definition isinstance_list_DatetimeIndex (v : pyval) : bool :=
  match v with PyList _ | PyDatetimeIndex _ => true | _ => false end.

(** [hasattr(v, "__len__")] *)
Definition hasattr_len (v : pyval) : bool :=
  match v with
  | PyStr _ | PyList _ | PyTuple _ | PyRange _ _ _ | PyDatetimeIndex _ => true
  | _ => false
  end.

(** ** Exceptions and the logger *)

Inductive exn : Type :=
| TypeError_no_len (v : pyval)          (* object of type ... has no len() *)
| TypeError_not_iterable (v : pyval)
| ValueError_fxx (given : pyval)        (* fxx must be an int, list, or range *)
| ValueError_DATES (given : pyval)      (* DATES must be a pandas-parsable ... *)
| ValueError_max_workers                (* max_workers must be greater than 0 *)
| ValueError_range_step                 (* range() arg 3 must not be zero *)
| ValueError_format (v : pyval)         (* unknown format code 'd' *)
| DateParseError (v : pyval)            (* raised inside pd.to_datetime *)
| IndexError                            (* list index out of range *)
| Exception (msg : string).             (* raised by a collaborator *)

Inductive log_record : Type :=
| Info_working (tasks threads : Z)      (* Working on {tasks} tasks with {threads} threads. *)
| Error_exception (e : exn)             (* Exception has occured : {e} *)
| Info_number_of_objects (n : nat)      (* Number of Herbie objects: {n} *)
| Warning_could_not_find (missing existing : nat). (* Could not find {m}/{e} GRIB files. *)

(** Computations that may raise and that write to the logger.  The log
    survives a raise. *)
Definition M (A : Type) : Type := list log_record -> (exn + A) * list log_record.

Definition ret {A} (a : A) : M A := fun L => (inr a, L).

Definition bind {A B} (c : M A) (k : A -> M B) : M B :=
  fun L => match c L with
           | (inl e, L') => (inl e, L')
           | (inr a, L') => k a L'
           end.

Definition raise {A} (e : exn) : M A := fun L => (inl e, L).

Definition lift {A} (r : exn + A) : M A := fun L => (r, L).

Definition log (r : log_record) : M unit := fun L => (inr tt, L ++ [r]).

Notation "x <- c ;; k" := (bind c (fun x => k))
  (at level 61, c at next level, right associativity).
Notation "c ;;; k" := (bind c (fun _ => k))
  (at level 61, right associativity).

(** Bind of the pure error type, for code that does not log. *)
Definition ebind {A B} (r : exn + A) (k : A -> exn + B) : exn + B :=
  match r with inl e => inl e | inr a => k a end.

(** ** Built-ins: [len], iteration, [range], [min] *)

(** [len(range(start, stop, step))] *)
Definition range_len (start stop step : Z) : Z :=
  if 0 <? step then
    (if start <? stop then (stop - start - 1) / step + 1 else 0)
  else if step <? 0 then
    (if stop <? start then (start - stop - 1) / (- step) + 1 else 0)
  else 0.

Definition range_elems (start stop step : Z) : list Z :=
  map (fun i => start + Z.of_nat i * step)
      (seq 0 (Z.to_nat (range_len start stop step))).

Definition chars (s : string) : list pyval :=
  map (fun c => PyStr (String c EmptyString)) (list_ascii_of_string s).

Definition len (v : pyval) : exn + Z :=
  match v with
  | PyStr s => inr (Z.of_nat (String.length s))
  | PyList l | PyTuple l => inr (Z.of_nat (List.length l))
  | PyRange a b c => inr (range_len a b c)
  | PyDatetimeIndex l => inr (Z.of_nat (List.length l))
  | _ => inl (TypeError_no_len v)
  end.

(** The elements a [for] loop over [v] visits. *)
Definition iter (v : pyval) : exn + list pyval :=
  match v with
  | PyStr s => inr (chars s)
  | PyList l | PyTuple l => inr l
  | PyRange a b c => inr (map PyInt (range_elems a b c))
  | PyDatetimeIndex l => inr (map PyDatetime l)
  | _ => inl (TypeError_not_iterable v)
  end.

(** ** Input normalisation *)

Section Normalizer.

(** [pd.to_datetime] on a scalar; [None] when pandas raises. *)
Variable to_datetime : pyval -> option Z.

Definition pd_to_datetime (v : pyval) : exn + pyval :=
  match to_datetime v with
  | Some t => inr (PyDatetime t)
  | None => inl (DateParseError v)
  end.

(** [_validate_fxx] *)
Definition _validate_fxx (fxx : pyval) : exn + pyval :=
  let fxx := if isinstance_int fxx then PyList [fxx] else fxx in
  if negb (isinstance_list_range fxx) then inl (ValueError_fxx fxx)
  else inr fxx.

(** The [if]/[elif] of [_validate_DATES]: the value of [DATES] when the
    final [isinstance] test is reached. *)
Definition coerce_DATES (DATES : pyval) : exn + pyval :=
  if isinstance_str DATES then
    ebind (pd_to_datetime DATES) (fun t => inr (PyList [t]))
  else if negb (hasattr_len DATES) then
    ebind (pd_to_datetime DATES) (fun t => inr (PyList [t]))
  else inr DATES.

(** [_validate_DATES] *)
Definition _validate_DATES (DATES : pyval) : exn + pyval :=
  ebind (coerce_DATES DATES) (fun DATES =>
  if negb (isinstance_list_DatetimeIndex DATES) then inl (ValueError_DATES DATES)
  else inr DATES).

End Normalizer.

(** ** Sorting, scheduling and the worker pool *)

(** [list.sort(key=...)] is a stable sort; for keys that compare without
    raising its result is the stable insertion sort below. *)
Fixpoint insert_by {A} (key : A -> Z) (x : A) (l : list A) : list A :=
  match l with
  | [] => [x]
  | y :: l' => if key x <=? key y then x :: y :: l' else y :: insert_by key x l'
  end.

Definition sort_by {A} (key : A -> Z) (l : list A) : list A :=
  fold_right (insert_by key) [] l.

(** [as_completed(futures)] yields every future once, in the order the
    workers finish.  The order is chosen by a schedule: at each step the
    head of the schedule (0 once it is exhausted), taken modulo the
    number of pending futures, selects the next future to complete. *)
Fixpoint complete {A} (fuel : nat) (sched : list nat) (pending : list A) : list A :=
  match fuel with
  | O => []
  | S fuel' =>
      let k := Nat.modulo (hd 0%nat sched) (List.length pending) in
      match nth_error pending k with
      | Some f => f :: complete fuel' (tl sched) (firstn k pending ++ skipn (S k) pending)
      | None => []
      end
  end.

Definition as_completed {A} (sched : list nat) (futures : list A) : list A :=
  complete (List.length futures) sched futures.

(** [ThreadPoolExecutor(max_workers)] *)
Definition ThreadPoolExecutor (max_workers : Z) : exn + unit :=
  if max_workers <=? 0 then inl ValueError_max_workers else inr tt.

(** The loop over [as_completed(futures)]: a result is appended, an
    exception is logged. *)
Fixpoint collect {A} (completed : list (exn + A)) (acc : list A) : M (list A) :=
  match completed with
  | [] => ret acc
  | inr r :: rest => collect rest (acc ++ [r])
  | inl e :: rest => log (Error_exception e) ;;; collect rest acc
  end.

(** ** The batch resolver *)

(** What this module reads of a [Herbie] object. *)
Record HerbieObj : Type := {
  H_date : Z;                (* H.date, ns since the epoch *)
  H_fxx : Z;                 (* H.fxx *)
  H_grib : option string     (* H.grib: the file found, or None *)
}.

Record FastHerbie : Type := {
  self_DATES : pyval;
  self_fxx : pyval;
  self_tasks : Z;
  self_objects : list HerbieObj;
  self_file_exists : list HerbieObj;
  self_file_not_exists : list HerbieObj
}.

Definition grib_is_not_None (H : HerbieObj) : bool :=
  match H_grib H with Some _ => true | None => false end.

Definition grib_is_None (H : HerbieObj) : bool :=
  match H_grib H with Some _ => false | None => true end.

Section Batch.

Variable to_datetime : pyval -> option Z.

(** [Herbie(date=DATE, fxx=f, **kwargs)] with the keyword options of the
    call fixed: the object, or the exception the constructor raised. *)
Variable Herbie : pyval -> pyval -> exn + HerbieObj.

(** [H.download(search, **download_kwargs)]: the local path, or the
    exception raised. *)
Variable H_download : HerbieObj -> option string -> exn + string.

(** [[exe.submit(Herbie, date=DATE, fxx=f, **kwargs)
      for DATE in DATES for f in fxx]]: one future per pair, in
    submission order, each holding the outcome of its call. *)
Fixpoint submit (ds : list pyval) (fxx : pyval) : exn + list (exn + HerbieObj) :=
  match ds with
  | [] => inr []
  | DATE :: ds' =>
      ebind (iter fxx) (fun fs =>
      ebind (submit ds' fxx) (fun rest =>
      inr (map (Herbie DATE) fs ++ rest)))
  end.

(** [FastHerbie.__init__] up to the submission of the futures. *)
Definition init_submit (DATES fxx : pyval) (max_threads : Z)
  : M (pyval * pyval * Z * list (exn + HerbieObj)) :=
  self_DATES <- lift (_validate_DATES to_datetime DATES) ;;
  self_fxx <- lift (_validate_fxx fxx) ;;
  nD <- lift (len DATES) ;;
  nF <- lift (len fxx) ;;
  let tasks := nD * nF in
  let threads := Z.min tasks max_threads in
  log (Info_working tasks threads) ;;;
  exe <- lift (ThreadPoolExecutor threads) ;;
  ds <- lift (iter DATES) ;;
  futures <- lift (submit ds fxx) ;;
  ret (self_DATES, self_fxx, tasks, futures).

(** [FastHerbie.__init__] from the loop over [as_completed(futures)]. *)
Definition init_collect (st : pyval * pyval * Z * list (exn + HerbieObj))
    (sched : list nat) : M FastHerbie :=
  let '(self_DATES, self_fxx, tasks, futures) := st in
  objects <- collect (as_completed sched futures) [] ;;
  log (Info_number_of_objects (List.length objects)) ;;;
  let objects := sort_by H_fxx objects in
  let objects := sort_by H_date objects in
  let file_exists := filter grib_is_not_None objects in
  let file_not_exists := filter grib_is_None objects in
  (if (0 <? List.length file_not_exists)%nat
   then log (Warning_could_not_find (List.length file_not_exists)
                                    (List.length file_exists))
   else ret tt) ;;;
  ret {| self_DATES := self_DATES;
         self_fxx := self_fxx;
         self_tasks := tasks;
         self_objects := objects;
         self_file_exists := file_exists;
         self_file_not_exists := file_not_exists |}.

(** [FastHerbie.__init__(DATES, fxx, max_threads=..., **kwargs)] under
    the completion order [sched]. *)
Definition FastHerbie__init__ (DATES fxx : pyval) (max_threads : Z)
    (sched : list nat) : M FastHerbie :=
  st <- init_submit DATES fxx max_threads ;;
  init_collect st sched.

(** [FastHerbie.__len__] *)
Definition FastHerbie__len__ (self : FastHerbie) : nat :=
  List.length (self_objects self).

(** *** Tabular view *)

(** [range(0, stop, step)] as the comprehension of [df] uses it. *)
Definition range0 (stop step : Z) : exn + list Z :=
  if step =? 0 then inl ValueError_range_step
  else inr (range_elems 0 stop step).

(** [l[x : x + n]] for non-negative [x] and [n]. *)
Definition slice {A} (l : list A) (x n : Z) : list A :=
  firstn (Z.to_nat n) (skipn (Z.to_nat x) l).

(** [f"F{i:02d}"] *)
Definition format_F02d (i : pyval) : exn + string :=
  let digits n :=
    let s := NilZero.string_of_int (Z.to_int n) in
    if (0 <=? n) && (n <? 10) then ("0" ++ s)%string else s in
  match i with
  | PyInt n => inr ("F" ++ digits n)%string
  | PyBool b => inr ("F" ++ digits (if b then 1 else 0))%string
  | _ => inl (ValueError_format i)
  end.

Fixpoint format_all (fs : list pyval) : exn + list string :=
  match fs with
  | [] => inr []
  | i :: fs' =>
      ebind (format_F02d i) (fun c =>
      ebind (format_all fs') (fun cs => inr (c :: cs)))
  end.

(** The arguments [pd.DataFrame(ds_list, index=..., columns=...)] is
    called with: row [i] of [df_data] is labelled [df_index[i]], column
    [j] is labelled [df_columns[j]]. *)
Record DataFrame : Type := {
  df_data : list (list HerbieObj);
  df_index : pyval;
  df_columns : list string
}.

(** [FastHerbie.df] *)
Definition df (self : FastHerbie) : exn + DataFrame :=
  ebind (len (self_fxx self)) (fun L =>
  ebind (range0 (Z.of_nat (List.length (self_objects self))) L) (fun xs =>
  let ds_list := map (fun x => slice (self_objects self) x L) xs in
  ebind (iter (self_fxx self)) (fun fs =>
  ebind (format_all fs) (fun columns =>
  inr {| df_data := ds_list;
         df_index := self_DATES self;
         df_columns := columns |})))).

(** *** Bulk download *)

(** [FastHerbie.download(search, max_threads=..., **download_kwargs)] *)
Definition download (self : FastHerbie) (search : option string)
    (max_threads : Z) (sched : list nat) : M (list string) :=
  let threads := Z.min (self_tasks self) max_threads in
  log (Info_working (self_tasks self) threads) ;;;
  exe <- lift (ThreadPoolExecutor threads) ;;
  let futures := map (fun H => H_download H search) (self_file_exists self) in
  outFiles <- collect (as_completed sched futures) [] ;;
  ret outFiles.

(** *** Latest file *)

(** [Timestamp.floor(freq)] for a fixed positive frequency. *)
Definition floor (t : Z) (freq : positive) : Z :=
  Z.pos freq * (t / Z.pos freq).

(** [pd.date_range(start=..., end=..., freq=...)]: [start],
    [start + freq], ... up to and including [end]. *)
Definition date_range (start end_ : Z) (freq : positive) : list Z :=
  if start <=? end_ then
    map (fun i => start + Z.of_nat i * Z.pos freq)
        (seq 0 (Z.to_nat ((end_ - start) / Z.pos freq + 1)))
  else [].

(** The timestamps [Herbie_latest] probes when the clock reads [now]. *)
Definition latest_DATES (n : Z) (freq : positive) (now : Z) : list Z :=
  let current := floor now freq in
  date_range (current - Z.pos freq * n) current freq.

(** [l[-1]] *)
Definition last_item {A} (l : list A) : exn + A :=
  match rev l with
  | x :: _ => inr x
  | [] => inl IndexError
  end.

(** [Herbie_latest(n, freq, **kwargs)], the clock reading [now]; [fxx]
    and [max_threads] take the defaults of [FastHerbie]. *)
Definition Herbie_latest (n : Z) (freq : positive) (now : Z)
    (sched : list nat) : M HerbieObj :=
  FH <- FastHerbie__init__ (PyDatetimeIndex (latest_DATES n freq now))
                           (PyList [PyInt 0]) 50 sched ;;
  lift (last_item (self_file_exists FH)).

End Batch.

(** ** The combined inventory *)

Section Inventory.

(** A row of the inventory table of one file. *)
Variable Row : Type.

(** [H.inventory(search)]: the table of one object, as the list of its
    rows, or the exception raised. *)
Variable H_inventory : HerbieObj -> option string -> exn + list Row.

(** [df.assign(FILE=i.grib)]: every row gets the column [FILE]. *)
Definition assign_FILE (df : list Row) (grib : option string)
  : list (Row * option string) :=
  map (fun r => (r, grib)) df.

(** The loop of [inventory] over [self.file_exists], [dfs] being the
    tables appended so far. *)
Fixpoint inventory_loop (Hs : list HerbieObj) (search : option string)
    (dfs : list (list (Row * option string)))
  : exn + list (list (Row * option string)) :=
  match Hs with
  | [] => inr dfs
  | i :: rest =>
      ebind (H_inventory i search) (fun df =>
      let df := assign_FILE df (H_grib i) in
      inventory_loop rest search (dfs ++ [df]))
  end.

(** [pd.concat(dfs, ignore_index=True)]: the rows of the tables one after
    the other, renumbered from 0 (the position in the list); pandas
    raises [ValueError] on an empty list of tables. *)
Definition pd_concat {A} (dfs : list (list A)) : exn + list A :=
  match dfs with
  | [] => inl (Exception "ValueError: No objects to concatenate")
  | _ => inr (List.concat dfs)
  end.

(** [FastHerbie.inventory(search)] *)
Definition inventory (self : FastHerbie) (search : option string)
  : exn + list (Row * option string) :=
  ebind (inventory_loop (self_file_exists self) search []) pd_concat.

End Inventory.

(** ** Reading into datasets *)

(** What [H.xarray(...)] returned, as [FastHerbie.xarray] tells it apart:
    a list (of datasets), one [xr.Dataset], or anything else. *)
Inductive opened (Dataset : Type) : Type :=
| Multiple (l : list Dataset)
| Single (ds : Dataset)
| Unknown (v : pyval).
Arguments Multiple {Dataset} l.
Arguments Single {Dataset} ds.
Arguments Unknown {Dataset} v.

(** [[future.result() for future in as_completed(futures)]], and the
    sequential comprehension: the results in order, or the first
    exception met. *)
Fixpoint results {A} (completed : list (exn + A)) : exn + list A :=
  match completed with
  | [] => inr []
  | inl e :: _ => inl e
  | inr r :: rest => ebind (results rest) (fun rs => inr (r :: rs))
  end.

(** [if key not in hypercubes: hypercubes[key] = []] followed by
    [hypercubes[key].append(ds)], on a dict kept in insertion order. *)
Fixpoint hypercubes_append {Dataset} (key : string) (ds : Dataset)
    (hypercubes : list (string * list Dataset)) : list (string * list Dataset) :=
  match hypercubes with
  | [] => [(key, [ds])]
  | (k, l) :: rest =>
      if String.eqb k key then (k, l ++ [ds]) :: rest
      else (k, l) :: hypercubes_append key ds rest
  end.

(** The keys [list.sort(key=...)] computes before sorting, in list
    order; the first exception of the key function aborts the sort. *)
Fixpoint keys_of {A} (key : A -> exn + Z) (l : list A) : exn + list (Z * A) :=
  match l with
  | [] => inr []
  | x :: rest =>
      ebind (key x) (fun k =>
      ebind (keys_of key rest) (fun ks => inr ((k, x) :: ks)))
  end.

(** [l.sort(key=...)] for a key function that may raise. *)
Definition sort_by_key {A} (key : A -> exn + Z) (l : list A) : exn + list A :=
  ebind (keys_of key l) (fun ks => inr (map snd (sort_by fst ks))).

Section Xarray.

(** [xr.Dataset] *)
Variable Dataset : Type.

(** [H.xarray(search=search, **xarray_kwargs)] *)
Variable H_xarray : HerbieObj -> option string -> exn + opened Dataset.

(** The dict key of a dataset: the [GRIB_typeOfLevel] of its first data
    variable, ["_"], and the string of the values of that level. *)
Variable level_key : Dataset -> exn + string.

(** [x.step.data.max() if hasattr(x.step, 'data') else 0], and the same
    for [x.time]. *)
Variable step_key : Dataset -> exn + Z.
Variable time_key : Dataset -> exn + Z.

(** [xr.combine_nested(grid, concat_dim=["time", "step"])], with
    [combine_attrs="drop_conflicts"] when the flag is set. *)
Variable combine_nested : list (list Dataset) -> bool -> exn + Dataset.

(** [ds.squeeze()] *)
Variable squeeze : Dataset -> Dataset.

(** The inner loop over the datasets of one list. *)
Fixpoint group_many (l : list Dataset) (hypercubes : list (string * list Dataset))
  : exn + list (string * list Dataset) :=
  match l with
  | [] => inr hypercubes
  | ds_hypercube :: rest =>
      ebind (level_key ds_hypercube) (fun key =>
      group_many rest (hypercubes_append key ds_hypercube hypercubes))
  end.

(** The loop [for ds in ds_list] that fills [hypercubes]. *)
Fixpoint group_all (ds_list : list (opened Dataset))
    (hypercubes : list (string * list Dataset))
  : exn + list (string * list Dataset) :=
  match ds_list with
  | [] => inr hypercubes
  | Multiple l :: rest =>
      ebind (group_many l hypercubes) (fun hypercubes =>
      group_all rest hypercubes)
  | Single ds :: rest =>
      ebind (level_key ds) (fun key =>
      group_all rest (hypercubes_append key ds hypercubes))
  | Unknown v :: _ =>
      inl (Exception "NotImplementedError: Unknown object type encountered while reading GRIB files with xarray")
  end.

(** [try: xr.combine_nested(..., combine_attrs="drop_conflicts")
     except Exception: xr.combine_nested(...)] *)
Definition combine_or_fallback (grid : list (list Dataset)) : exn + Dataset :=
  match combine_nested grid true with
  | inr ds => inr ds
  | inl _ => combine_nested grid false
  end.

(** The body of the loop over [hypercubes.items()] for one group. *)
Definition merge_group (fxx : pyval) (hypercube_ds_list : list Dataset)
  : exn + Dataset :=
  ebind (sort_by_key step_key hypercube_ds_list) (fun l =>
  ebind (sort_by_key time_key l) (fun l =>
  ebind (len fxx) (fun L =>
  ebind (range0 (Z.of_nat (List.length l)) L) (fun xs =>
  let grid := map (fun x => slice l x L) xs in
  ebind (combine_or_fallback grid) (fun ds =>
  inr (squeeze ds)))))).

(** The loop over [hypercubes.items()], and [list(hypercubes.values())]. *)
Fixpoint merge_all (fxx : pyval) (hypercubes : list (string * list Dataset))
  : exn + list Dataset :=
  match hypercubes with
  | [] => inr []
  | (type_of_level, hypercube_ds_list) :: rest =>
      ebind (merge_group fxx hypercube_ds_list) (fun ds =>
      ebind (merge_all fxx rest) (fun dss => inr (ds :: dss)))
  end.

(** [FastHerbie.xarray(search, max_threads=..., **xarray_kwargs)];
    [max_threads] is [None] by default. *)
Definition xarray (self : FastHerbie) (search : option string)
    (max_threads : option Z) (sched : list nat) : M (list Dataset) :=
  let sequential :=
    lift (results (map (fun H => H_xarray H search) (self_file_exists self))) in
  ds_list <-
    match max_threads with
    | Some max_threads =>
        if max_threads =? 0 then sequential
        else
          let threads := Z.min (self_tasks self) max_threads in
          log (Info_working (self_tasks self) threads) ;;;
          exe <- lift (ThreadPoolExecutor max_threads) ;;
          let futures :=
            map (fun H => H_xarray H search) (self_file_exists self) in
          lift (results (as_completed sched futures))
    | None => sequential
    end ;;
  hypercubes <- lift (group_all ds_list []) ;;
  lift (merge_all (self_fxx self) hypercubes).

End Xarray.

(** ** Vocabulary of the statements *)

(** The results, resp. the exceptions, held by a list of futures. *)
Fixpoint successes {A} (futures : list (exn + A)) : list A :=
  match futures with
  | [] => []
  | inr r :: rest => r :: successes rest
  | inl _ :: rest => successes rest
  end.

Fixpoint failures {A} (futures : list (exn + A)) : list exn :=
  match futures with
  | [] => []
  | inr _ :: rest => failures rest
  | inl e :: rest => e :: failures rest
  end.

(** The exceptions reported through [log.error]. *)
Fixpoint logged_errors (L : list log_record) : list exn :=
  match L with
  | [] => []
  | Error_exception e :: L' => e :: logged_errors L'
  | _ :: L' => logged_errors L'
  end.

(** Date ascending, then lead ascending. *)
Definition date_fxx_le (H1 H2 : HerbieObj) : Prop :=
  H_date H1 < H_date H2 \/ (H_date H1 = H_date H2 /\ H_fxx H1 <= H_fxx H2).

(** The objects of a batch whose futures finish in the order [sched]. *)
Definition resolved (futures : list (exn + HerbieObj)) (sched : list nat) : list HerbieObj :=
  sort_by H_date (sort_by H_fxx (successes (as_completed sched futures))).

(** ** Test doubles for the collaborators *)

(** A [pd.to_datetime] that parses timestamps to themselves and one
    ISO date string. *)
Definition mock_to_datetime (v : pyval) : option Z :=
  match v with
  | PyDatetime t => Some t
  | PyStr s => if String.eqb s "2021-01-01" then Some 1609459200000000000 else None
  | _ => None
  end.

(** A [Herbie] whose constructor raises for lead 99 and for malformed
    tasks, and that finds a file exactly for leads below 48. *)
Definition mock_Herbie (DATE f : pyval) : exn + HerbieObj :=
  match mock_to_datetime DATE, f with
  | Some t, PyInt n =>
      if n =? 99 then inl (Exception "no such lead")
      else inr {| H_date := t; H_fxx := n;
                  H_grib := if n <? 48 then Some "subset.grib2" else None |}
  | _, _ => inl (Exception "malformed task")
  end.

(** A [download] that raises for lead 6 and returns a path otherwise. *)
Definition mock_download (H : HerbieObj) (search : option string) : exn + string :=
  if H_fxx H =? 6 then inl (Exception "connection reset")
  else inr "data/subset.grib2".

(** An [inventory] with two messages per file, that raises for lead 6. *)
Definition mock_inventory (H : HerbieObj) (search : option string) : exn + list string :=
  if H_fxx H =? 6 then inl (Exception "no index file")
  else inr ["TMP:2 m"; "UGRD:10 m"]%string.

(** Datasets of the test doubles: the fields they hold, each with its
    level key, run time and step. *)
Definition mock_Dataset : Type := list (string * Z * Z).

(** An [H.xarray] that raises for lead 6, returns two hypercubes for lead
    12 and one dataset otherwise. *)
Definition mock_xarray (H : HerbieObj) (search : option string)
  : exn + opened mock_Dataset :=
  if H_fxx H =? 6 then inl (Exception "cannot open")
  else if H_fxx H =? 12 then
    inr (Multiple [[("isobaricInhPa_500", H_date H, 12)];
                   [("surface_0", H_date H, 12)]])
  else inr (Single [("surface_0", H_date H, H_fxx H)]).

Definition mock_level_key (d : mock_Dataset) : exn + string :=
  match d with
  | (k, _, _) :: _ => inr k
  | [] => inl (Exception "IndexError: list index out of range")
  end.

Definition mock_time_key (d : mock_Dataset) : exn + Z :=
  match d with
  | (_, t, _) :: _ => inr t
  | [] => inr 0
  end.

Definition mock_step_key (d : mock_Dataset) : exn + Z :=
  match d with
  | (_, _, s) :: _ => inr s
  | [] => inr 0
  end.

(** A [combine_nested] that refuses [combine_attrs] and otherwise
    concatenates the fields of the grid, row by row. *)
Definition mock_combine_nested (grid : list (list mock_Dataset)) (drop_conflicts : bool)
  : exn + mock_Dataset :=
  if drop_conflicts then inl (Exception "unexpected keyword combine_attrs")
  else inr (List.concat (List.concat grid)).

Definition mock_squeeze (d : mock_Dataset) : mock_Dataset := d.

(** A batch of two dates and two leads whose four files exist. *)
Definition mock_batch : FastHerbie :=
  {| self_DATES := PyList [PyDatetime 1; PyDatetime 2];
     self_fxx := PyList [PyInt 0; PyInt 12];
     self_tasks := 4;
     self_objects :=
       [{| H_date := 1; H_fxx := 0; H_grib := Some "a.grib2" |};
        {| H_date := 1; H_fxx := 12; H_grib := Some "b.grib2" |};
        {| H_date := 2; H_fxx := 0; H_grib := Some "c.grib2" |};
        {| H_date := 2; H_fxx := 12; H_grib := Some "d.grib2" |}];
     self_file_exists :=
       [{| H_date := 1; H_fxx := 0; H_grib := Some "a.grib2" |};
        {| H_date := 1; H_fxx := 12; H_grib := Some "b.grib2" |};
        {| H_date := 2; H_fxx := 0; H_grib := Some "c.grib2" |};
        {| H_date := 2; H_fxx := 12; H_grib := Some "d.grib2" |}];
     self_file_not_exists := [] |}.

(** ** Vocabulary for the datasets *)

(** The datasets gathered from what the files returned, in order. *)
Definition datasets_of {Dataset} (ds_list : list (opened Dataset)) : list Dataset :=
  flat_map (fun o => match o with
                     | Multiple l => l
                     | Single ds => [ds]
                     | Unknown _ => []
                     end) ds_list.

(** The dataset has the level key [key]. *)
Definition has_key {Dataset} (level_key : Dataset -> exn + string) (key : string)
    (ds : Dataset) : bool :=
  match level_key ds with
  | inr k => String.eqb k key
  | inl _ => false
  end.

(** [hypercubes.get(key, [])] *)
Fixpoint group_of {Dataset} (key : string) (hypercubes : list (string * list Dataset))
  : list Dataset :=
  match hypercubes with
  | [] => []
  | (k, l) :: rest => if String.eqb k key then l else group_of key rest
  end.

(** The keys of the dict are distinct, no group is empty, and each key is
    paired with its group. *)
Definition well_grouped {Dataset} (hypercubes : list (string * list Dataset)) : Prop :=
  NoDup (map fst hypercubes) /\
  forall k l, In (k, l) hypercubes -> l <> [] /\ l = group_of k hypercubes.

(** Run time ascending, then step ascending, for datasets whose keys can
    be computed. *)
Definition time_step_le {Dataset} (time_key step_key : Dataset -> exn + Z)
    (d1 d2 : Dataset) : Prop :=
  exists t1 s1 t2 s2,
    time_key d1 = inr t1 /\ step_key d1 = inr s1 /\
    time_key d2 = inr t2 /\ step_key d2 = inr s2 /\
    (t1 < t2 \/ (t1 = t2 /\ s1 <= s2)).

(** * Properties *)

(** ** Completion orders *)

Lemma nth_error_pick {A} (l : list A) (k : nat) (a : A) :
  nth_error l k = Some a ->
  l = firstn k l ++ a :: skipn (S k) l.
Proof.
  revert k; induction l as [|x l IH]; intros [|k] Hk; simpl in *; try discriminate.
  - now inversion Hk.
  - f_equal. now apply IH.
Qed.

Lemma complete_Permutation {A} (fuel : nat) (sched : list nat) (pending : list A) :
  List.length pending = fuel ->
  Permutation (complete fuel sched pending) pending.
Proof.
  revert sched pending; induction fuel as [|fuel IH]; intros sched pending Hlen.
  - destruct pending; [constructor | discriminate].
  - simpl.
    set (k := Nat.modulo (hd 0%nat sched) (List.length pending)).
    assert (Hk : (k < List.length pending)%nat)
      by (apply Nat.mod_upper_bound; rewrite Hlen; discriminate).
    destruct (nth_error pending k) as [f|] eqn:Hf.
    + pose proof (nth_error_pick _ _ _ Hf) as Hsplit.
      rewrite Hsplit at 3.
      apply Permutation_cons_app, IH.
      apply (f_equal (@List.length A)) in Hsplit.
      rewrite length_app in Hsplit |- *. cbn [List.length] in Hsplit. lia.
    + apply nth_error_None in Hf. lia.
Qed.

Lemma as_completed_Permutation {A} (sched : list nat) (futures : list A) :
  Permutation (as_completed sched futures) futures.
Proof. now apply complete_Permutation. Qed.

(** Every order in which the futures can finish is produced by a schedule. *)
Lemma as_completed_complete {A} (futures order : list A) :
  Permutation futures order ->
  exists sched, as_completed sched futures = order.
Proof.
  unfold as_completed.
  revert futures; induction order as [|f order IH]; intros futures Hp.
  - apply Permutation_sym, Permutation_nil in Hp. subst. now exists [].
  - assert (Hin : In f futures)
      by (eapply Permutation_in; [apply Permutation_sym, Hp | now left]).
    apply in_split in Hin. destruct Hin as (l1 & l2 & ->).
    apply Permutation_sym, Permutation_cons_app_inv, Permutation_sym in Hp.
    destruct (IH _ Hp) as [sched Hs].
    exists (List.length l1 :: sched).
    rewrite length_app. simpl List.length.
    replace (List.length l1 + S (List.length l2))%nat
      with (S (List.length l1 + List.length l2)) by lia.
    cbn [complete hd tl].
    rewrite Nat.mod_small by (rewrite length_app; simpl; lia).
    rewrite nth_error_app2, Nat.sub_diag by lia. cbn [nth_error].
    rewrite firstn_app, Nat.sub_diag, firstn_all, firstn_O, app_nil_r.
    replace (S (List.length l1)) with (List.length l1 + 1)%nat by lia.
    rewrite skipn_app. 
    rewrite skipn_all2 by lia.
    replace (List.length l1 + 1 - List.length l1)%nat with 1%nat by lia.
    cbn [skipn app]. rewrite <- length_app. now rewrite Hs.
Qed.

Lemma successes_Permutation {A} (l l' : list (exn + A)) :
  Permutation l l' -> Permutation (successes l) (successes l').
Proof.
  induction 1 as [|[e|r] l l' _ IH|[e|r] [e'|r'] l|l l' l'' _ IH1 _ IH2]; simpl;
    try reflexivity; auto using perm_skip, perm_swap.
  now transitivity (successes l').
Qed.

Lemma failures_Permutation {A} (l l' : list (exn + A)) :
  Permutation l l' -> Permutation (failures l) (failures l').
Proof.
  induction 1 as [|[e|r] l l' _ IH|[e|r] [e'|r'] l|l l' l'' _ IH1 _ IH2]; simpl;
    try reflexivity; auto using perm_skip, perm_swap.
  now transitivity (failures l').
Qed.

(** The collection loop appends the results to the accumulator and the
    exceptions to the log, both in completion order. *)
Lemma collect_run {A} (completed : list (exn + A)) (acc : list A) (L : list log_record) :
  collect completed acc L =
  (inr (acc ++ successes completed), L ++ map Error_exception (failures completed)).
Proof.
  revert acc L; induction completed as [|[e|r] rest IH]; intros acc L; simpl.
  - unfold ret. now rewrite !app_nil_r.
  - unfold bind, log. rewrite IH. now rewrite <- app_assoc.
  - rewrite IH. now rewrite <- app_assoc.
Qed.

Lemma logged_errors_app (L1 L2 : list log_record) :
  logged_errors (L1 ++ L2) = logged_errors L1 ++ logged_errors L2.
Proof.
  induction L1 as [|[| | |] L1 IH]; simpl; auto. now rewrite IH.
Qed.

Lemma logged_errors_map (es : list exn) :
  logged_errors (map Error_exception es) = es.
Proof. induction es; simpl; congruence. Qed.

(** ** The two stable sorts *)

Section Sorting.

Context {A : Type} (key : A -> Z).

Lemma insert_by_Permutation (x : A) (l : list A) :
  Permutation (insert_by key x l) (x :: l).
Proof.
  induction l as [|y l IH]; simpl; [reflexivity|].
  destruct (key x <=? key y); [reflexivity|].
  rewrite IH. apply perm_swap.
Qed.

Lemma sort_by_Permutation (l : list A) : Permutation (sort_by key l) l.
Proof.
  induction l as [|x l IH]; simpl; [constructor|].
  rewrite insert_by_Permutation. now constructor.
Qed.

Lemma insert_by_sorted (x : A) (l : list A) :
  StronglySorted (fun a b => key a <= key b) l ->
  StronglySorted (fun a b => key a <= key b) (insert_by key x l).
Proof.
  induction 1 as [|y l Hs IH Hy]; simpl.
  - repeat constructor.
  - destruct (key x <=? key y) eqn:E.
    + apply Z.leb_le in E. constructor; [now constructor|].
      constructor; [exact E|].
      eapply Forall_impl; [|exact Hy]. simpl; intros; lia.
    + apply Z.leb_gt in E. constructor; [exact IH|].
      rewrite insert_by_Permutation. constructor; [lia | exact Hy].
Qed.

Lemma sort_by_sorted (l : list A) :
  StronglySorted (fun a b => key a <= key b) (sort_by key l).
Proof.
  induction l; simpl; [constructor | now apply insert_by_sorted].
Qed.

End Sorting.

Lemma date_fxx_le_date (H1 H2 : HerbieObj) :
  date_fxx_le H1 H2 -> H_date H1 <= H_date H2.
Proof. unfold date_fxx_le; lia. Qed.

(** Inserting by date an object whose lead is minimal keeps the
    (date, lead) order: stability of the second sort. *)
Lemma insert_by_date_sorted (x : HerbieObj) (l : list HerbieObj) :
  StronglySorted date_fxx_le l ->
  Forall (fun y => H_fxx x <= H_fxx y) l ->
  StronglySorted date_fxx_le (insert_by H_date x l).
Proof.
  induction 1 as [|y l Hs IH Hy]; intros Hx; simpl.
  - repeat constructor.
  - inversion Hx as [|? ? Hxy Hxl]; subst.
    destruct (H_date x <=? H_date y) eqn:E.
    + apply Z.leb_le in E. constructor; [now constructor|].
      constructor; [unfold date_fxx_le; lia|].
      rewrite Forall_forall in *. intros z Hz.
      specialize (Hy z Hz). specialize (Hxl z Hz).
      apply date_fxx_le_date in Hy. unfold date_fxx_le. lia.
    + apply Z.leb_gt in E. constructor; [now apply IH|].
      rewrite insert_by_Permutation. constructor; [|exact Hy].
      unfold date_fxx_le; lia.
Qed.

Lemma sort_by_date_sorted (l : list HerbieObj) :
  StronglySorted (fun a b => H_fxx a <= H_fxx b) l ->
  StronglySorted date_fxx_le (sort_by H_date l).
Proof.
  induction 1 as [|x l Hs IH Hx]; simpl; [constructor|].
  apply insert_by_date_sorted; [exact IH|].
  now rewrite sort_by_Permutation.
Qed.

(** Sorting by lead, then stably by date, sorts by (date, lead). *)
Lemma objects_sorted (l : list HerbieObj) :
  StronglySorted date_fxx_le (sort_by H_date (sort_by H_fxx l)).
Proof. apply sort_by_date_sorted, sort_by_sorted. Qed.

Lemma objects_Permutation (l : list HerbieObj) :
  Permutation (sort_by H_date (sort_by H_fxx l)) l.
Proof. now rewrite !sort_by_Permutation. Qed.

Lemma filter_sorted {A} (R : A -> A -> Prop) (f : A -> bool) (l : list A) :
  StronglySorted R l -> StronglySorted R (filter f l).
Proof.
  induction 1 as [|x l Hs IH Hx]; simpl; [constructor|].
  destruct (f x); [|exact IH].
  constructor; [exact IH|].
  rewrite Forall_forall in *. intros y Hy. apply filter_In in Hy. now apply Hx.
Qed.

(** Two (date, lead)-sorted arrangements of the same objects coincide as
    soon as an object is determined by its date and lead. *)
Lemma sorted_Permutation_eq (l1 l2 : list HerbieObj) :
  (forall H1 H2, In H1 l1 -> In H2 l1 ->
     H_date H1 = H_date H2 -> H_fxx H1 = H_fxx H2 -> H1 = H2) ->
  StronglySorted date_fxx_le l1 ->
  StronglySorted date_fxx_le l2 ->
  Permutation l1 l2 ->
  l1 = l2.
Proof.
  intros Hkey Hs1; revert l2 Hkey.
  induction Hs1 as [|a l1 Hs1 IH Ha]; intros l2 Hkey Hs2 Hp.
  - now apply Permutation_nil in Hp.
  - destruct Hs2 as [|b l2 Hs2 Hb].
    + now apply Permutation_sym, Permutation_nil in Hp.
    + assert (Hab : a = b).
      { assert (Hina : In a (b :: l2)) by (eapply Permutation_in; [exact Hp | now left]).
        assert (Hinb : In b (a :: l1))
          by (eapply Permutation_in; [apply Permutation_sym, Hp | now left]).
        destruct Hina as [->|Hina]; [reflexivity|].
        destruct Hinb as [->|Hinb]; [reflexivity|].
        rewrite Forall_forall in Ha, Hb.
        specialize (Ha b Hinb). specialize (Hb a Hina).
        apply Hkey; [now left | now right | |]; unfold date_fxx_le in *; lia. }
      subst b. f_equal.
      apply IH; [| exact Hs2 | now apply Permutation_cons_inv in Hp].
      intros H1 H2 Hi1 Hi2. apply Hkey; now right.
Qed.

(** ** Input normalisation *)

Lemma validate_fxx_list (l : list pyval) : _validate_fxx (PyList l) = inr (PyList l).
Proof. reflexivity. Qed.

Lemma validate_fxx_range (a b c : Z) : _validate_fxx (PyRange a b c) = inr (PyRange a b c).
Proof. reflexivity. Qed.

Lemma validate_fxx_int (n : Z) : _validate_fxx (PyInt n) = inr (PyList [PyInt n]).
Proof. reflexivity. Qed.

(** ** The batch resolver *)

Section BatchProperties.

Variable to_datetime : pyval -> option Z.
Variable Herbie : pyval -> pyval -> exn + HerbieObj.

Lemma resolved_Permutation futures sched :
  Permutation (resolved futures sched) (successes futures).
Proof.
  unfold resolved. rewrite objects_Permutation.
  apply successes_Permutation, as_completed_Permutation.
Qed.

Lemma resolved_sorted futures sched :
  StronglySorted date_fxx_le (resolved futures sched).
Proof. apply objects_sorted. Qed.

(** What the first half of [__init__] has established when it returns. *)
Lemma init_submit_inv DATES fxx max_threads L sD sF tasks futures L1 :
  init_submit to_datetime Herbie DATES fxx max_threads L
    = (inr (sD, sF, tasks, futures), L1) ->
  _validate_DATES to_datetime DATES = inr sD /\
  _validate_fxx fxx = inr sF /\
  (exists nD nF, len DATES = inr nD /\ len fxx = inr nF /\ tasks = nD * nF) /\
  0 < Z.min tasks max_threads /\
  (exists ds, iter DATES = inr ds /\ submit Herbie ds fxx = inr futures) /\
  L1 = L ++ [Info_working tasks (Z.min tasks max_threads)].
Proof.
  unfold init_submit, bind, lift, log, ret.
  destruct (_validate_DATES to_datetime DATES) as [e|sD']; [discriminate|].
  destruct (_validate_fxx fxx) as [e|sF']; [discriminate|].
  destruct (len DATES) as [e|nD]; [discriminate|].
  destruct (len fxx) as [e|nF]; [discriminate|].
  unfold ThreadPoolExecutor.
  destruct (Z.min (nD * nF) max_threads <=? 0) eqn:Ht; [discriminate|].
  destruct (iter DATES) as [e|ds]; [discriminate|].
  destruct (submit Herbie ds fxx) as [e|futs] eqn:Hsub; [discriminate|].
  intros Heq; inversion Heq; subst.
  apply Z.leb_gt in Ht.
  split; [reflexivity|]. split; [reflexivity|].
  split; [exists nD, nF; auto|]. split; [exact Ht|].
  split; [exists ds; auto | reflexivity].
Qed.

(** The second half of [__init__] always returns, and only extends the
    log. *)
Lemma init_collect_run sD sF tasks futures sched L :
  exists X,
    init_collect (sD, sF, tasks, futures) sched L =
      (inr {| self_DATES := sD;
              self_fxx := sF;
              self_tasks := tasks;
              self_objects := resolved futures sched;
              self_file_exists := filter grib_is_not_None (resolved futures sched);
              self_file_not_exists := filter grib_is_None (resolved futures sched) |},
       L ++ X) /\
    logged_errors X = failures (as_completed sched futures).
Proof.
  unfold init_collect, bind. rewrite collect_run. unfold log.
  change ([] ++ successes (as_completed sched futures))
    with (successes (as_completed sched futures)).
  fold (resolved futures sched).
  destruct (0 <? List.length (filter grib_is_None (resolved futures sched)))%nat;
    unfold ret; rewrite <- !app_assoc; eexists; (split; [reflexivity|]);
    rewrite !logged_errors_app, logged_errors_map; simpl; now rewrite !app_nil_r.
Qed.

Lemma init_unfold DATES fxx max_threads sched L :
  FastHerbie__init__ to_datetime Herbie DATES fxx max_threads sched L =
  match init_submit to_datetime Herbie DATES fxx max_threads L with
  | (inl e, L1) => (inl e, L1)
  | (inr st, L1) => init_collect st sched L1
  end.
Proof. reflexivity. Qed.

(** Every future holds the outcome of one call of the constructor. *)
Lemma submit_In ds fxx futures r :
  submit Herbie ds fxx = inr futures -> In r futures ->
  exists DATE f, r = Herbie DATE f.
Proof.
  revert futures; induction ds as [|d ds IH]; intros futures; simpl.
  - intros Heq; inversion Heq; contradiction.
  - destruct (iter fxx) as [e|fs]; simpl; [discriminate|].
    destruct (submit Herbie ds fxx) as [e|rest]; simpl; [discriminate|].
    intros Heq Hin; inversion Heq; subst.
    apply in_app_or in Hin. destruct Hin as [Hin|Hin]; [|eauto].
    apply in_map_iff in Hin. destruct Hin as (f & <- & _). eauto.
Qed.

Lemma In_successes {A} (futures : list (exn + A)) (a : A) :
  In a (successes futures) <-> In (inr a) futures.
Proof.
  induction futures as [|[e|r] rest IH]; simpl.
  - tauto.
  - rewrite IH. split; [tauto | intros [H|H]; [discriminate | exact H]].
  - rewrite IH. split; intros [H|H]; auto; left; congruence.
Qed.

End BatchProperties.

Lemma mock_Herbie_keyed d1 f1 d2 f2 H1 H2 :
  mock_Herbie d1 f1 = inr H1 -> mock_Herbie d2 f2 = inr H2 ->
  H_date H1 = H_date H2 -> H_fxx H1 = H_fxx H2 -> H1 = H2.
Proof.
  unfold mock_Herbie.
  destruct (mock_to_datetime d1) as [t1|]; [|discriminate].
  destruct (mock_to_datetime d2) as [t2|]; [|destruct f1; try destruct (_ =? _); discriminate].
  destruct f1 as [| |n1| | | | | | |]; try discriminate.
  destruct f2 as [| |n2| | | | | | |]; try (destruct (_ =? _); discriminate).
  destruct (n1 =? 99); [discriminate|]. destruct (n2 =? 99); [discriminate|].
  intros E1 E2; inversion E1; inversion E2; subst; simpl.
  now intros -> ->.
Qed.

(** ** Claims on the batch resolver *)

(** C1 (the code departs from the claim).  A single integer lead never
    yields a batch: whatever the other inputs, construction raises (at
    [len(fxx)], taken on the argument rather than on the normalised
    [self.fxx]).  And a bare date string is counted and iterated character
    by character: the 10 characters of "2021-01-01" with the one-element
    lead list give 10 tasks, not 1. *)
Theorem init_scalar_inputs_not_normalised :
  (forall to_datetime Herbie DATES n max_threads sched L,
     exists e L',
       FastHerbie__init__ to_datetime Herbie DATES (PyInt n) max_threads sched L
       = (inl e, L')) /\
  (fst (FastHerbie__init__ mock_to_datetime mock_Herbie
          (PyStr "2021-01-01") (PyInt 0) 50 [] [])
   = inl (TypeError_no_len (PyInt 0))) /\
  (exists b L',
     FastHerbie__init__ mock_to_datetime mock_Herbie
       (PyStr "2021-01-01") (PyList [PyInt 0]) 50 [] [] = (inr b, L') /\
     self_DATES b = PyList [PyDatetime 1609459200000000000] /\
     self_tasks b = 10 /\
     hd_error L' = Some (Info_working 10 10) /\
     List.length (logged_errors L') = 10%nat).
Proof.
  split; [|split].
  - intros. unfold FastHerbie__init__, init_submit, bind, lift.
    destruct (_validate_DATES to_datetime DATES) as [e|sD]; [now eauto|].
    cbn [_validate_fxx isinstance_int isinstance_list_range negb].
    destruct (len DATES) as [e|nD]; [now eauto|].
    cbn [len]. now eauto.
  - reflexivity.
  - eexists; eexists. split; [vm_compute; reflexivity|].
    repeat split.
Qed.

(** Whatever the inputs and the completion order, a batch that is built
    holds its objects, and both partitions, by date and then by lead. *)
Lemma init_sorted to_datetime Herbie DATES fxx max_threads sched L b :
  fst (FastHerbie__init__ to_datetime Herbie DATES fxx max_threads sched L) = inr b ->
  StronglySorted date_fxx_le (self_objects b) /\
  StronglySorted date_fxx_le (self_file_exists b) /\
  StronglySorted date_fxx_le (self_file_not_exists b).
Proof.
  rewrite init_unfold.
  destruct (init_submit _ _ _ _ _ _) as [[e|[[[sD sF] tasks] futures]] L1];
    [discriminate|].
  destruct (init_collect_run sD sF tasks futures sched L1) as (L' & -> & _).
  simpl. intros Heq; inversion Heq; subst; simpl.
  auto using resolved_sorted, filter_sorted.
Qed.

(** C2.  The resolved collection and both partitions are sorted by date
    ascending, then by lead ascending, and two runs on the same inputs
    that differ only in the order in which the workers finish return the
    same result (the same batch, or the same exception) -- the objects
    being those of a data handle that is determined by its date and
    lead. *)
Theorem resolution_order_invariant :
  forall to_datetime Herbie,
    (forall d1 f1 d2 f2 H1 H2,
        Herbie d1 f1 = inr H1 -> Herbie d2 f2 = inr H2 ->
        H_date H1 = H_date H2 -> H_fxx H1 = H_fxx H2 -> H1 = H2) ->
    forall DATES fxx max_threads sched1 sched2 L,
      fst (FastHerbie__init__ to_datetime Herbie DATES fxx max_threads sched1 L)
      = fst (FastHerbie__init__ to_datetime Herbie DATES fxx max_threads sched2 L) /\
      (forall b,
          fst (FastHerbie__init__ to_datetime Herbie DATES fxx max_threads sched1 L)
          = inr b ->
          StronglySorted date_fxx_le (self_objects b) /\
          StronglySorted date_fxx_le (self_file_exists b) /\
          StronglySorted date_fxx_le (self_file_not_exists b)).
Proof.
  intros to_datetime Herbie Hkey DATES fxx max_threads sched1 sched2 L.
  split; [|intros b; apply init_sorted].
  rewrite !init_unfold.
  destruct (init_submit _ _ _ _ _ _) as [[e|[[[sD sF] tasks] futures]] L1] eqn:Hsub;
    [reflexivity|].
  destruct (init_collect_run sD sF tasks futures sched1 L1) as (L1' & -> & _).
  destruct (init_collect_run sD sF tasks futures sched2 L1) as (L2' & -> & _).
  simpl.
  assert (Hres : resolved futures sched1 = resolved futures sched2).
  { apply sorted_Permutation_eq; try apply resolved_sorted.
    - apply init_submit_inv in Hsub.
      destruct Hsub as (_ & _ & _ & _ & (ds & _ & Hds) & _).
      intros H1 H2 Hin1 Hin2.
      assert (Hfut : forall H, In H (resolved futures sched1) ->
                               exists d f, Herbie d f = inr H).
      { intros H Hin.
        eapply Permutation_in in Hin; [|apply resolved_Permutation].
        apply In_successes in Hin.
        destruct (submit_In _ _ _ _ _ Hds Hin) as (d & f & Hdf). eauto. }
      destruct (Hfut _ Hin1) as (d1 & f1 & E1).
      destruct (Hfut _ Hin2) as (d2 & f2 & E2).
      eauto.
    - rewrite !resolved_Permutation. reflexivity. }
  now rewrite Hres.
Qed.

Lemma resolution_order_invariant_witness :
  fst (FastHerbie__init__ mock_to_datetime mock_Herbie
         (PyList [PyDatetime 2; PyDatetime 1]) (PyList [PyInt 6; PyInt 99; PyInt 0])
         50 [4; 0; 2; 1]%nat [])
  = fst (FastHerbie__init__ mock_to_datetime mock_Herbie
           (PyList [PyDatetime 2; PyDatetime 1]) (PyList [PyInt 6; PyInt 99; PyInt 0])
           50 [] []) /\
  (forall b,
      fst (FastHerbie__init__ mock_to_datetime mock_Herbie
             (PyList [PyDatetime 2; PyDatetime 1]) (PyList [PyInt 6; PyInt 99; PyInt 0])
             50 [4; 0; 2; 1]%nat [])
      = inr b ->
      StronglySorted date_fxx_le (self_objects b) /\
      StronglySorted date_fxx_le (self_file_exists b) /\
      StronglySorted date_fxx_le (self_file_not_exists b)).
Proof.
  apply (resolution_order_invariant mock_to_datetime mock_Herbie mock_Herbie_keyed).
Defined.

Lemma partition_Permutation (l : list HerbieObj) :
  Permutation (filter grib_is_not_None l ++ filter grib_is_None l) l.
Proof.
  induction l as [|H l IH]; simpl; [constructor|].
  unfold grib_is_not_None, grib_is_None at 1.
  destruct (H_grib H); simpl.
  - now constructor.
  - symmetry. apply Permutation_cons_app. now symmetry.
Qed.

Lemma successes_failures_length {A} (futures : list (exn + A)) :
  (List.length (successes futures) + List.length (failures futures))%nat
  = List.length futures.
Proof. induction futures as [|[e|r] rest IH]; simpl; lia. Qed.

(** C3.  In a batch that was built, no object is in both partitions;
    every resolved object is in exactly one of them, the existing one
    when its [grib] is present and the missing one when it is [None];
    the two partitions together are the resolved objects; and the
    resolved objects are, up to order, the results of the futures that
    did not raise -- one object per such future, none for a future that
    raised. *)
Theorem partition_invariant :
  forall to_datetime Herbie DATES fxx max_threads sched L b L',
    FastHerbie__init__ to_datetime Herbie DATES fxx max_threads sched L = (inr b, L') ->
    (forall H, In H (self_file_exists b) -> In H (self_file_not_exists b) -> False) /\
    (forall H, In H (self_objects b) ->
       (H_grib H <> None /\ In H (self_file_exists b) /\ ~ In H (self_file_not_exists b)) \/
       (H_grib H = None /\ In H (self_file_not_exists b) /\ ~ In H (self_file_exists b))) /\
    Permutation (self_file_exists b ++ self_file_not_exists b) (self_objects b) /\
    exists sD sF tasks futures L1,
      init_submit to_datetime Herbie DATES fxx max_threads L
        = (inr (sD, sF, tasks, futures), L1) /\
      Permutation (self_objects b) (successes futures) /\
      (List.length (self_file_exists b) + List.length (self_file_not_exists b)
       + List.length (failures futures))%nat = List.length futures.
Proof.
  intros to_datetime Herbie DATES fxx max_threads sched L b L'.
  rewrite init_unfold.
  destruct (init_submit _ _ _ _ _ _) as [[e|[[[sD sF] tasks] futures]] L1] eqn:Hsub;
    [discriminate|].
  destruct (init_collect_run sD sF tasks futures sched L1) as (L2 & -> & _).
  intros Heq; inversion Heq; subst; clear Heq; simpl.
  split; [|split; [|split]].
  - intros H H1 H2. apply filter_In in H1, H2.
    unfold grib_is_not_None, grib_is_None in *.
    destruct H1 as [_ H1], H2 as [_ H2]. destruct (H_grib H); discriminate.
  - intros H Hin. rewrite !filter_In.
    unfold grib_is_not_None, grib_is_None.
    destruct (H_grib H) as [g|]; [left | right];
      (split; [congruence|]; split; [now split | intros [_ ?]; discriminate]).
  - apply partition_Permutation.
  - exists sD, sF, tasks, futures, L1. split; [reflexivity|].
    split; [apply resolved_Permutation|].
    rewrite <- length_app, (Permutation_length (partition_Permutation _)).
    rewrite (Permutation_length (resolved_Permutation _ _)).
    apply successes_failures_length.
Qed.

Lemma partition_invariant_witness :
  exists b L',
    FastHerbie__init__ mock_to_datetime mock_Herbie
      (PyList [PyDatetime 1]) (PyList [PyInt 60; PyInt 99; PyInt 0]) 50 [2; 0]%nat []
    = (inr b, L') /\
    self_file_exists b = [{| H_date := 1; H_fxx := 0; H_grib := Some "subset.grib2" |}] /\
    self_file_not_exists b = [{| H_date := 1; H_fxx := 60; H_grib := None |}] /\
    Permutation (self_file_exists b ++ self_file_not_exists b) (self_objects b).
Proof.
  eexists; eexists.
  split; [vm_compute; reflexivity|]. split; [reflexivity|]. split; [reflexivity|].
  exact (proj1 (proj2 (proj2
           (partition_invariant mock_to_datetime mock_Herbie
              (PyList [PyDatetime 1]) (PyList [PyInt 60; PyInt 99; PyInt 0])
              50 [2; 0]%nat [] _ _ eq_refl)))).
Defined.

(** The cross product of a list of dates and a list of leads: one future
    per pair, dates outermost. *)
Lemma submit_list Herbie (ds fs : list pyval) :
  submit Herbie ds (PyList fs) = inr (flat_map (fun d => map (Herbie d) fs) ds).
Proof.
  induction ds as [|d ds IH]; simpl; [reflexivity|]. now rewrite IH.
Qed.

(** A run whose futures were submitted returns a batch, whatever the
    futures hold: its objects are the results of the futures that did not
    raise, and after the line on the number of tasks the errors it logs
    are the exceptions of the others. *)
Lemma init_returns_log to_datetime Herbie DATES fxx max_threads sched L
    sD sF tasks futures L1 :
  init_submit to_datetime Herbie DATES fxx max_threads L
    = (inr (sD, sF, tasks, futures), L1) ->
  exists X,
    FastHerbie__init__ to_datetime Herbie DATES fxx max_threads sched L =
      (inr {| self_DATES := sD;
              self_fxx := sF;
              self_tasks := tasks;
              self_objects := resolved futures sched;
              self_file_exists := filter grib_is_not_None (resolved futures sched);
              self_file_not_exists := filter grib_is_None (resolved futures sched) |},
       L ++ Info_working tasks (Z.min tasks max_threads) :: X) /\
    logged_errors X = failures (as_completed sched futures).
Proof.
  intros Hsub. rewrite init_unfold, Hsub.
  destruct (init_collect_run sD sF tasks futures sched L1) as (X & Heq & Hlog).
  exists X. split; [|exact Hlog]. rewrite Heq.
  apply init_submit_inv in Hsub. destruct Hsub as (_ & _ & _ & _ & _ & ->).
  now rewrite <- app_assoc.
Qed.

Lemma init_returns to_datetime Herbie DATES fxx max_threads sched L
    sD sF tasks futures L1 :
  init_submit to_datetime Herbie DATES fxx max_threads L
    = (inr (sD, sF, tasks, futures), L1) ->
  exists L',
    FastHerbie__init__ to_datetime Herbie DATES fxx max_threads sched L =
      (inr {| self_DATES := sD;
              self_fxx := sF;
              self_tasks := tasks;
              self_objects := resolved futures sched;
              self_file_exists := filter grib_is_not_None (resolved futures sched);
              self_file_not_exists := filter grib_is_None (resolved futures sched) |},
       L') /\
    logged_errors L' = logged_errors L ++ failures (as_completed sched futures).
Proof.
  intros Hsub.
  destruct (init_returns_log _ _ _ _ _ sched _ _ _ _ _ _ Hsub) as (X & Heq & Hlog).
  eexists. split; [exact Heq|].
  rewrite logged_errors_app. simpl. now rewrite Hlog.
Qed.

(** Lists of dates and of leads reach the pool as soon as it has a worker. *)
Lemma init_submit_lists to_datetime Herbie (ds : list Z) (fs : list pyval) max_threads L :
  0 < Z.min (Z.of_nat (List.length ds) * Z.of_nat (List.length fs)) max_threads ->
  init_submit to_datetime Herbie (PyDatetimeIndex ds) (PyList fs) max_threads L =
  (inr (PyDatetimeIndex ds, PyList fs,
        Z.of_nat (List.length ds) * Z.of_nat (List.length fs),
        flat_map (fun d => map (Herbie d) fs) (map PyDatetime ds)),
   L ++ [Info_working (Z.of_nat (List.length ds) * Z.of_nat (List.length fs))
           (Z.min (Z.of_nat (List.length ds) * Z.of_nat (List.length fs)) max_threads)]).
Proof.
  intros Hpool. unfold init_submit, bind, lift, log, ThreadPoolExecutor.
  cbn [_validate_DATES coerce_DATES isinstance_str hasattr_len negb ebind
       isinstance_list_DatetimeIndex _validate_fxx isinstance_int
       isinstance_list_range len iter].
  apply Z.leb_gt in Hpool. rewrite Hpool.
  now rewrite submit_list.
Qed.

(** C4, as the code has it.  The mock constructor raises for the only
    task of this run, and [__init__] returns an empty batch: no exception
    reaches the caller. *)
Lemma all_tasks_failed_returns_batch :
  init_submit mock_to_datetime mock_Herbie
    (PyList [PyDatetime 1]) (PyList [PyInt 99]) 50 []
  = (inr (PyList [PyDatetime 1], PyList [PyInt 99], 1,
          [inl (Exception "no such lead")]),
     [Info_working 1 1]) /\
  FastHerbie__init__ mock_to_datetime mock_Herbie
    (PyList [PyDatetime 1]) (PyList [PyInt 99]) 50 [] []
  = (inr {| self_DATES := PyList [PyDatetime 1];
            self_fxx := PyList [PyInt 99];
            self_tasks := 1;
            self_objects := [];
            self_file_exists := [];
            self_file_not_exists := [] |},
     [Info_working 1 1;
      Error_exception (Exception "no such lead");
      Info_number_of_objects 0]).
Proof. split; reflexivity. Qed.

(** C4 (amended).  When every future of a run raised, [__init__] does not
    raise: it logs each exception and returns the batch whose objects and
    partitions are empty. *)
Theorem all_tasks_failed_empty_batch :
  forall to_datetime Herbie DATES fxx max_threads sched L sD sF tasks futures L1,
    init_submit to_datetime Herbie DATES fxx max_threads L
      = (inr (sD, sF, tasks, futures), L1) ->
    successes futures = [] ->
    exists L',
      FastHerbie__init__ to_datetime Herbie DATES fxx max_threads sched L =
        (inr {| self_DATES := sD;
                self_fxx := sF;
                self_tasks := tasks;
                self_objects := [];
                self_file_exists := [];
                self_file_not_exists := [] |},
         L') /\
      Permutation (logged_errors L') (logged_errors L ++ failures futures) /\
      List.length (failures futures) = List.length futures.
Proof.
  intros to_datetime Herbie DATES fxx max_threads sched L sD sF tasks futures L1
         Hsub Hnone.
  destruct (init_returns _ _ _ _ _ sched _ _ _ _ _ _ Hsub) as (L' & Heq & Hlog).
  assert (Hres : resolved futures sched = []).
  { apply Permutation_nil. rewrite <- Hnone. symmetry. apply resolved_Permutation. }
  rewrite Hres in Heq. exists L'. split; [exact Heq|]. split.
  - rewrite Hlog. apply Permutation_app_head, failures_Permutation,
      as_completed_Permutation.
  - rewrite <- (successes_failures_length futures), Hnone. reflexivity.
Qed.

Lemma all_tasks_failed_empty_batch_witness :
  exists L',
    FastHerbie__init__ mock_to_datetime mock_Herbie
      (PyList [PyDatetime 1; PyDatetime 2]) (PyList [PyInt 99]) 50 [1]%nat [] =
      (inr {| self_DATES := PyList [PyDatetime 1; PyDatetime 2];
              self_fxx := PyList [PyInt 99];
              self_tasks := 2;
              self_objects := [];
              self_file_exists := [];
              self_file_not_exists := [] |},
       L') /\
    Permutation (logged_errors L')
      ([] ++ [Exception "no such lead"; Exception "no such lead"]) /\
    2%nat = 2%nat.
Proof.
  exact (all_tasks_failed_empty_batch mock_to_datetime mock_Herbie
           (PyList [PyDatetime 1; PyDatetime 2]) (PyList [PyInt 99]) 50 [1]%nat []
           _ _ _ _ _ eq_refl eq_refl).
Defined.

(** C5.  In a run where at least one future raised and at least one did
    not, [__init__] returns a batch: its objects are exactly the results
    of the futures that did not raise (so there is at least one), both
    partitions together hold the same objects, and the errors it logged
    are exactly the exceptions of the futures that raised. *)
Theorem partial_failure_batch :
  forall to_datetime Herbie DATES fxx max_threads sched L sD sF tasks futures L1,
    init_submit to_datetime Herbie DATES fxx max_threads L
      = (inr (sD, sF, tasks, futures), L1) ->
    failures futures <> [] ->
    successes futures <> [] ->
    exists b L',
      FastHerbie__init__ to_datetime Herbie DATES fxx max_threads sched L = (inr b, L') /\
      Permutation (self_objects b) (successes futures) /\
      Permutation (self_file_exists b ++ self_file_not_exists b) (successes futures) /\
      self_objects b <> [] /\
      Permutation (logged_errors L') (logged_errors L ++ failures futures) /\
      (List.length (self_objects b) < List.length futures)%nat.
Proof.
  intros to_datetime Herbie DATES fxx max_threads sched L sD sF tasks futures L1
         Hsub Hfail Hsucc.
  destruct (init_returns _ _ _ _ _ sched _ _ _ _ _ _ Hsub) as (L' & Heq & Hlog).
  eexists; exists L'. split; [exact Heq|]. simpl.
  split; [apply resolved_Permutation|].
  split; [rewrite partition_Permutation; apply resolved_Permutation|].
  split.
  - intros Hnil. apply Hsucc, Permutation_nil.
    rewrite <- Hnil. apply resolved_Permutation.
  - split.
    + rewrite Hlog. apply Permutation_app_head, failures_Permutation,
        as_completed_Permutation.
    + rewrite (Permutation_length (resolved_Permutation _ _)).
      rewrite <- (successes_failures_length futures).
      destruct (failures futures); [congruence | simpl; lia].
Qed.

Lemma partial_failure_batch_witness :
  exists b L',
    FastHerbie__init__ mock_to_datetime mock_Herbie
      (PyList [PyDatetime 2; PyDatetime 1]) (PyList [PyInt 99; PyInt 0]) 50 [3]%nat []
    = (inr b, L') /\
    Permutation (self_objects b)
      [{| H_date := 2; H_fxx := 0; H_grib := Some "subset.grib2" |};
       {| H_date := 1; H_fxx := 0; H_grib := Some "subset.grib2" |}] /\
    Permutation (self_file_exists b ++ self_file_not_exists b)
      [{| H_date := 2; H_fxx := 0; H_grib := Some "subset.grib2" |};
       {| H_date := 1; H_fxx := 0; H_grib := Some "subset.grib2" |}] /\
    self_objects b <> [] /\
    Permutation (logged_errors L')
      ([] ++ [Exception "no such lead"; Exception "no such lead"]) /\
    (List.length (self_objects b) < 4)%nat.
Proof.
  refine (partial_failure_batch mock_to_datetime mock_Herbie
            (PyList [PyDatetime 2; PyDatetime 1]) (PyList [PyInt 99; PyInt 0])
            50 [3]%nat [] _ _ _ _ _ eq_refl _ _); simpl; discriminate.
Defined.

(** ** Claims on the batch operations *)

(** C6 (the code departs from the claim).  Dates and leads given in
    descending order, every file found and no task failing: the frame has
    2 rows and 2 columns, row 0 is labelled with [DATES[0]] (date 2) and
    column 0 with lead 6, but cell (0,0) holds the object of date 1 and
    lead 0, because the rows are cut from the sorted objects while the
    labels keep the caller's order.  The object of the task
    ([DATES[0]], [fxx[0]]) sits in cell (1,1). *)
Theorem df_labels_follow_caller_order :
  exists b L',
    FastHerbie__init__ mock_to_datetime mock_Herbie
      (PyList [PyDatetime 2; PyDatetime 1]) (PyList [PyInt 6; PyInt 0]) 50 [] []
    = (inr b, L') /\
    logged_errors L' = [] /\
    self_file_not_exists b = [] /\
    mock_Herbie (PyDatetime 2) (PyInt 6)
    = inr {| H_date := 2; H_fxx := 6; H_grib := Some "subset.grib2" |} /\
    df b = inr {| df_data :=
                    [[{| H_date := 1; H_fxx := 0; H_grib := Some "subset.grib2" |};
                      {| H_date := 1; H_fxx := 6; H_grib := Some "subset.grib2" |}];
                     [{| H_date := 2; H_fxx := 0; H_grib := Some "subset.grib2" |};
                      {| H_date := 2; H_fxx := 6; H_grib := Some "subset.grib2" |}]];
                  df_index := PyList [PyDatetime 2; PyDatetime 1];
                  df_columns := ["F06"; "F00"]%string |}.
Proof.
  eexists; eexists. split; [vm_compute; reflexivity|].
  repeat split.
Qed.

(** The window of [Herbie_latest] holds both end points of the span
    [n * freq]. *)
Lemma latest_DATES_length (n : Z) (freq : positive) (now : Z) :
  0 <= n ->
  List.length (latest_DATES n freq now) = Z.to_nat (n + 1).
Proof.
  intros Hn. unfold latest_DATES, date_range.
  set (c := floor now freq).
  assert (Hle : c - Z.pos freq * n <= c) by nia.
  apply Z.leb_le in Hle. rewrite Hle.
  rewrite length_map, length_seq. f_equal. f_equal.
  replace (c - (c - Z.pos freq * n)) with (n * Z.pos freq) by lia.
  apply Z.div_mul. lia.
Qed.

Lemma latest_DATES_last (n : Z) (freq : positive) (now : Z) :
  0 <= n ->
  last (latest_DATES n freq now) 0 = floor now freq.
Proof.
  intros Hn. unfold latest_DATES, date_range.
  set (c := floor now freq).
  assert (Hle : c - Z.pos freq * n <= c) by nia.
  apply Z.leb_le in Hle. rewrite Hle.
  replace ((c - (c - Z.pos freq * n)) / Z.pos freq) with n
    by (replace (c - (c - Z.pos freq * n)) with (n * Z.pos freq) by lia;
        symmetry; apply Z.div_mul; lia).
  replace (Z.to_nat (n + 1)) with (S (Z.to_nat n)) by lia.
  rewrite seq_S, map_app. cbn [map]. rewrite last_last. lia.
Qed.

(** C7 (the code departs from the claim).  With [n = 6] the window has 7
    timestamps, ending at the floored current time, and [Herbie_latest]
    starts 7 tasks: the first thing it logs is "Working on 7 tasks with 7
    threads". *)
Theorem Herbie_latest_probes_n_plus_one :
  forall to_datetime Herbie freq now sched,
    List.length (latest_DATES 6 freq now) = 7%nat /\
    last (latest_DATES 6 freq now) 0 = floor now freq /\
    hd_error (snd (Herbie_latest to_datetime Herbie 6 freq now sched []))
    = Some (Info_working 7 7).
Proof.
  intros to_datetime Herbie freq now sched.
  pose proof (latest_DATES_length 6 freq now ltac:(lia)) as Hlen.
  split; [exact Hlen|]. split; [apply latest_DATES_last; lia|].
  pose proof (init_submit_lists to_datetime Herbie (latest_DATES 6 freq now)
                [PyInt 0] 50 []) as Hsub.
  rewrite Hlen in Hsub. specialize (Hsub ltac:(reflexivity)).
  destruct (init_returns_log _ _ _ _ _ sched _ _ _ _ _ _ Hsub) as (X & Heq & _).
  unfold Herbie_latest, bind, lift. rewrite Heq. reflexivity.
Qed.

(** C8.  When the pool of [download] can be created and exactly one of
    the N download calls raises, [download] returns the paths of the
    other N-1 calls in completion order, raises nothing, and logs that one
    exception as an error. *)
Theorem download_one_failure :
  forall H_download self search max_threads sched L,
    0 < Z.min (self_tasks self) max_threads ->
    List.length
      (failures (map (fun H => H_download H search) (self_file_exists self))) = 1%nat ->
    exists paths L' e,
      download H_download self search max_threads sched L = (inr paths, L') /\
      paths = successes (as_completed sched
                (map (fun H => H_download H search) (self_file_exists self))) /\
      S (List.length paths) = List.length (self_file_exists self) /\
      logged_errors L' = logged_errors L ++ [e] /\
      In (inl e) (map (fun H => H_download H search) (self_file_exists self)).
Proof.
  intros H_download self search max_threads sched L Hpool Hone.
  set (futures := map (fun H => H_download H search) (self_file_exists self)) in *.
  pose proof (failures_Permutation _ _ (as_completed_Permutation sched futures)) as Hf.
  pose proof (successes_Permutation _ _ (as_completed_Permutation sched futures)) as Hs.
  destruct (failures (as_completed sched futures)) as [|e [|e' es]] eqn:Hfail;
    try (apply Permutation_length in Hf; simpl in Hf; lia).
  eexists (successes (as_completed sched futures)); eexists; exists e.
  unfold download, bind, lift, log, ThreadPoolExecutor.
  apply Z.leb_gt in Hpool. rewrite Hpool.
  fold futures. rewrite collect_run, Hfail. unfold ret. simpl app.
  split; [reflexivity|]. split; [reflexivity|]. split; [|split].
  - rewrite (Permutation_length Hs).
    pose proof (successes_failures_length futures) as Hlen.
    rewrite Hone in Hlen.
    assert (Hmap : List.length futures = List.length (self_file_exists self))
      by apply length_map.
    lia.
  - rewrite !logged_errors_app. simpl. now rewrite app_nil_r.
  - assert (Hin : In e (failures futures))
      by (eapply Permutation_in; [exact Hf | now left]).
    clear - Hin. induction futures as [|[e0|r] rest IH]; simpl in *; intuition congruence.
Qed.

Lemma download_one_failure_witness :
  exists paths L' e,
    download mock_download
      {| self_DATES := PyList [PyDatetime 1];
         self_fxx := PyList [PyInt 0; PyInt 6; PyInt 12];
         self_tasks := 3;
         self_objects :=
           [{| H_date := 1; H_fxx := 0; H_grib := Some "subset.grib2" |};
            {| H_date := 1; H_fxx := 6; H_grib := Some "subset.grib2" |};
            {| H_date := 1; H_fxx := 12; H_grib := Some "subset.grib2" |}];
         self_file_exists :=
           [{| H_date := 1; H_fxx := 0; H_grib := Some "subset.grib2" |};
            {| H_date := 1; H_fxx := 6; H_grib := Some "subset.grib2" |};
            {| H_date := 1; H_fxx := 12; H_grib := Some "subset.grib2" |}];
         self_file_not_exists := [] |}
      None 20 [2; 0]%nat []
    = (inr paths, L') /\
    paths = ["data/subset.grib2"; "data/subset.grib2"]%string /\
    S (List.length paths) = 3%nat /\
    logged_errors L' = [] ++ [e] /\
    In (inl e) [inr "data/subset.grib2"%string;
                inl (Exception "connection reset");
                inr "data/subset.grib2"%string].
Proof.
  refine (download_one_failure mock_download _ None 20 [2; 0]%nat [] _ _);
    reflexivity.
Defined.

(** ** Claims on the input normaliser *)

(** C9, as the code has it.  A tuple holding one timestamp is a sequence
    of parsable dates, is left as it is by the coercion, and is rejected
    with the invalid-input error. *)
Lemma validate_DATES_rejects_tuple :
  coerce_DATES mock_to_datetime (PyTuple [PyDatetime 1]) = inr (PyTuple [PyDatetime 1]) /\
  _validate_DATES mock_to_datetime (PyTuple [PyDatetime 1])
  = inl (ValueError_DATES (PyTuple [PyDatetime 1])).
Proof. split; reflexivity. Qed.

(** C9 (amended).  [_validate_DATES] turns a single parsable value (a
    string, or a value without a length) into the one-element list of its
    timestamp, returns a list or a [DatetimeIndex] unchanged, and raises
    its invalid-input error exactly when the value left by the coercion
    is neither a list nor a [DatetimeIndex]; the only other exception is
    the one pandas raises on a single value it cannot parse. *)
Theorem validate_DATES_spec :
  forall to_datetime,
    (forall DATES t,
        isinstance_str DATES || negb (hasattr_len DATES) = true ->
        to_datetime DATES = Some t ->
        _validate_DATES to_datetime DATES = inr (PyList [PyDatetime t])) /\
    (forall l, _validate_DATES to_datetime (PyList l) = inr (PyList l)) /\
    (forall l, _validate_DATES to_datetime (PyDatetimeIndex l) = inr (PyDatetimeIndex l)) /\
    (forall DATES v,
        coerce_DATES to_datetime DATES = inr v ->
        (_validate_DATES to_datetime DATES = inl (ValueError_DATES v) <->
         isinstance_list_DatetimeIndex v = false) /\
        (_validate_DATES to_datetime DATES = inr v <->
         isinstance_list_DatetimeIndex v = true)) /\
    (forall DATES e,
        coerce_DATES to_datetime DATES = inl e ->
        e = DateParseError DATES /\ _validate_DATES to_datetime DATES = inl e).
Proof.
  intros to_datetime.
  split; [|split; [reflexivity|split; [reflexivity|split]]].
  - intros DATES t. unfold _validate_DATES, coerce_DATES, pd_to_datetime.
    destruct (isinstance_str DATES); simpl.
    + intros _ ->. reflexivity.
    + intros -> ->. reflexivity.
  - intros DATES v Hv. unfold _validate_DATES. rewrite Hv. simpl.
    destruct (isinstance_list_DatetimeIndex v); simpl;
      (split; split; congruence).
  - intros DATES e. unfold _validate_DATES, coerce_DATES, pd_to_datetime.
    destruct (isinstance_str DATES); [|destruct (negb (hasattr_len DATES))];
      try discriminate; destruct (to_datetime DATES); simpl;
      try discriminate; intros Heq; inversion Heq; auto.
Qed.

Lemma validate_DATES_spec_witness :
  _validate_DATES mock_to_datetime (PyStr "2021-01-01")
  = inr (PyList [PyDatetime 1609459200000000000]) /\
  (_validate_DATES mock_to_datetime (PyRange 0 3 1)
   = inl (ValueError_DATES (PyRange 0 3 1)) <->
   isinstance_list_DatetimeIndex (PyRange 0 3 1) = false) /\
  _validate_DATES mock_to_datetime (PyStr "yesterday")
  = inl (DateParseError (PyStr "yesterday")).
Proof.
  pose proof (validate_DATES_spec mock_to_datetime) as (Hone & _ & _ & Hiff & Herr).
  split; [apply Hone; reflexivity|].
  split; [apply (Hiff (PyRange 0 3 1)); reflexivity|].
  exact (proj2 (Herr (PyStr "yesterday") _ eq_refl)).
Defined.

(** C10.  [_validate_fxx] returns a list or a range as it is, without
    looking at the elements: lists of strings and of floats are accepted,
    while a bare string and a bare float are rejected. *)
Theorem validate_fxx_identity_on_lists :
  (forall l, _validate_fxx (PyList l) = inr (PyList l)) /\
  (forall start stop step,
      _validate_fxx (PyRange start stop step) = inr (PyRange start stop step)) /\
  (forall s, _validate_fxx (PyList [PyStr s]) = inr (PyList [PyStr s])) /\
  (forall x, _validate_fxx (PyList [PyFloat x]) = inr (PyList [PyFloat x])) /\
  (forall s, _validate_fxx (PyStr s) = inl (ValueError_fxx (PyStr s))) /\
  (forall x, _validate_fxx (PyFloat x) = inl (ValueError_fxx (PyFloat x))).
Proof. repeat split. Qed.

(** * Further properties *)

(** ** Built-ins *)

Lemma range_len_nonneg (start stop step : Z) : 0 <= range_len start stop step.
Proof.
  unfold range_len.
  destruct (0 <? step) eqn:Hs; [apply Z.ltb_lt in Hs|].
  - destruct (start <? stop) eqn:Hlt; [apply Z.ltb_lt in Hlt|lia].
    assert (0 <= (stop - start - 1) / step) by (apply Z.div_pos; lia). lia.
  - destruct (step <? 0) eqn:Hn; [apply Z.ltb_lt in Hn|lia].
    destruct (stop <? start) eqn:Hlt; [apply Z.ltb_lt in Hlt|lia].
    assert (0 <= (start - stop - 1) / - step) by (apply Z.div_pos; lia). lia.
Qed.

Lemma chars_length (s : string) : List.length (chars s) = String.length s.
Proof.
  unfold chars. rewrite length_map.
  induction s as [|c s IH]; simpl; congruence.
Qed.

(** A value that has a length can be iterated, and the loop visits as
    many elements as [len] says. *)
Lemma len_iter (v : pyval) (n : Z) :
  len v = inr n ->
  exists l, iter v = inr l /\ Z.of_nat (List.length l) = n.
Proof.
  destruct v; simpl; try discriminate; intros Heq; inversion Heq; subst;
    eexists; (split; [reflexivity|]).
  - now rewrite chars_length.
  - reflexivity.
  - reflexivity.
  - unfold range_elems. rewrite !length_map, length_seq.
    apply Z2Nat.id, range_len_nonneg.
  - now rewrite length_map.
Qed.

Lemma submit_length Herbie (ds fs : list pyval) (fxx : pyval) futures :
  iter fxx = inr fs ->
  submit Herbie ds fxx = inr futures ->
  List.length futures = (List.length ds * List.length fs)%nat.
Proof.
  intros Hfs. revert futures; induction ds as [|d ds IH]; intros futures; simpl.
  - intros Heq; inversion Heq; reflexivity.
  - rewrite Hfs. simpl. destruct (submit Herbie ds fxx) as [e|rest]; simpl;
      [discriminate|].
    intros Heq; inversion Heq; subst.
    rewrite length_app, length_map, (IH rest eq_refl). reflexivity.
Qed.

(** The futures submitted by [__init__] are as many as [self.tasks]. *)
Lemma init_submit_tasks to_datetime Herbie DATES fxx max_threads L
    sD sF tasks futures L1 :
  init_submit to_datetime Herbie DATES fxx max_threads L
    = (inr (sD, sF, tasks, futures), L1) ->
  Z.of_nat (List.length futures) = tasks.
Proof.
  intros Hsub. apply init_submit_inv in Hsub.
  destruct Hsub as (_ & _ & (nD & nF & HnD & HnF & ->) & _ & (ds & Hds & Hsub) & _).
  destruct (len_iter _ _ HnD) as (ds' & Hds' & <-).
  destruct (len_iter _ _ HnF) as (fs & Hfs & <-).
  rewrite Hds in Hds'. inversion Hds'; subst ds'.
  rewrite (submit_length _ _ _ _ _ Hfs Hsub). lia.
Qed.

(** The exact log of the second half of [__init__]: the exceptions in
    completion order, the number of objects, and the warning when a file
    is missing. *)
Lemma init_collect_log sD sF tasks futures sched L :
  snd (init_collect (sD, sF, tasks, futures) sched L) =
  L ++ map Error_exception (failures (as_completed sched futures))
    ++ [Info_number_of_objects (List.length (successes (as_completed sched futures)))]
    ++ (if (0 <? List.length (filter grib_is_None (resolved futures sched)))%nat
        then [Warning_could_not_find
                (List.length (filter grib_is_None (resolved futures sched)))
                (List.length (filter grib_is_not_None (resolved futures sched)))]
        else []).
Proof.
  unfold init_collect, bind. rewrite collect_run. unfold log.
  change ([] ++ successes (as_completed sched futures))
    with (successes (as_completed sched futures)).
  fold (resolved futures sched).
  destruct (0 <? List.length (filter grib_is_None (resolved futures sched)))%nat;
    unfold ret; simpl snd; rewrite <- !app_assoc; simpl; now rewrite ?app_nil_r.
Qed.

Lemma submit_flat_map Herbie (ds fs : list pyval) (fxx : pyval) :
  iter fxx = inr fs ->
  submit Herbie ds fxx = inr (flat_map (fun d => map (Herbie d) fs) ds).
Proof.
  intros Hfs. induction ds as [|d ds IH]; simpl; [reflexivity|].
  now rewrite Hfs, IH.
Qed.

(** Once both arguments are normalised and have a length, the first half
    of [__init__] logs the number of tasks and then either fails to
    create the pool or submits the whole cross product. *)
Lemma init_submit_cases to_datetime Herbie DATES fxx max_threads L sD sF nD nF :
  _validate_DATES to_datetime DATES = inr sD ->
  _validate_fxx fxx = inr sF ->
  len DATES = inr nD ->
  len fxx = inr nF ->
  exists ds fs,
    iter DATES = inr ds /\ iter fxx = inr fs /\
    init_submit to_datetime Herbie DATES fxx max_threads L =
    (if Z.min (nD * nF) max_threads <=? 0
     then inl ValueError_max_workers
     else inr (sD, sF, nD * nF, flat_map (fun d => map (Herbie d) fs) ds),
     L ++ [Info_working (nD * nF) (Z.min (nD * nF) max_threads)]).
Proof.
  intros HD HF HnD HnF.
  destruct (len_iter _ _ HnD) as (ds & Hds & _).
  destruct (len_iter _ _ HnF) as (fs & Hfs & _).
  exists ds, fs. split; [exact Hds|]. split; [exact Hfs|].
  unfold init_submit, bind, lift, log, ThreadPoolExecutor, ret.
  rewrite HD, HF, HnD, HnF.
  destruct (Z.min (nD * nF) max_threads <=? 0); [reflexivity|].
  now rewrite Hds, (submit_flat_map _ _ _ _ Hfs).
Qed.

(** ** More on the batch resolver *)

(** X1.  Task accounting.  In a batch that was built, [self.tasks] is
    [len(DATES) * len(fxx)], and every task is accounted for exactly
    once: the files found, the files missing and the errors logged by
    the run add up to [self.tasks]; [len(batch)] counts the first two. *)
Theorem init_task_accounting :
  forall to_datetime Herbie DATES fxx max_threads sched L b L',
    FastHerbie__init__ to_datetime Herbie DATES fxx max_threads sched L = (inr b, L') ->
    exists nD nF es,
      len DATES = inr nD /\ len fxx = inr nF /\ self_tasks b = nD * nF /\
      logged_errors L' = logged_errors L ++ es /\
      Z.of_nat (List.length (self_file_exists b)
                + List.length (self_file_not_exists b)
                + List.length es) = self_tasks b /\
      FastHerbie__len__ b
      = (List.length (self_file_exists b) + List.length (self_file_not_exists b))%nat.
Proof.
  intros to_datetime Herbie DATES fxx max_threads sched L b L' Hinit.
  destruct (init_submit to_datetime Herbie DATES fxx max_threads L)
    as [[e|[[[sD sF] tasks] futures]] L1] eqn:Hsub;
    [rewrite init_unfold, Hsub in Hinit; discriminate|].
  destruct (init_returns _ _ _ _ _ sched _ _ _ _ _ _ Hsub) as (L2 & Heq & Hlog).
  rewrite Heq in Hinit. inversion Hinit; subst; clear Hinit. simpl.
  pose proof (init_submit_tasks _ _ _ _ _ _ _ _ _ _ _ Hsub) as Htasks.
  apply init_submit_inv in Hsub.
  destruct Hsub as (_ & _ & (nD & nF & HnD & HnF & Ht) & _).
  exists nD, nF, (failures (as_completed sched futures)).
  repeat (split; [assumption|]).
  assert (Hparts :
    (List.length (filter grib_is_not_None (resolved futures sched))
     + List.length (filter grib_is_None (resolved futures sched)))%nat
    = List.length (resolved futures sched))
    by (rewrite <- length_app; apply Permutation_length, partition_Permutation).
  split; [|unfold FastHerbie__len__; simpl; lia].
  rewrite Hparts, (Permutation_length (resolved_Permutation _ _)).
  rewrite (Permutation_length
             (failures_Permutation _ _ (as_completed_Permutation sched futures))).
  now rewrite successes_failures_length.
Qed.

Lemma init_task_accounting_witness :
  exists b L' es,
    FastHerbie__init__ mock_to_datetime mock_Herbie
      (PyList [PyDatetime 2; PyDatetime 1]) (PyRange 0 100 33) 5 [3; 3]%nat []
    = (inr b, L') /\
    self_tasks b = 2 * 4 /\
    logged_errors L' = [] ++ es /\
    Z.of_nat (List.length (self_file_exists b)
              + List.length (self_file_not_exists b)
              + List.length es) = self_tasks b /\
    List.length (self_file_exists b) = 4%nat /\
    List.length (self_file_not_exists b) = 2%nat.
Proof.
  destruct (init_task_accounting mock_to_datetime mock_Herbie
              (PyList [PyDatetime 2; PyDatetime 1]) (PyRange 0 100 33) 5
              [3; 3]%nat [] _ _ eq_refl)
    as (nD & nF & es & HnD & HnF & Ht & Hlog & Hsum & _).
  eexists; eexists; exists es.
  split; [vm_compute; reflexivity|].
  inversion HnD; inversion HnF; subst.
  split; [exact Ht|]. split; [exact Hlog|]. split; [exact Hsum|].
  split; reflexivity.
Defined.



(** X3.  For a list of dates and a list of leads, [__init__] returns a
    batch exactly when both lists are non-empty and [max_threads] is
    positive; an empty list, or a non-positive [max_threads], ends in the
    [ValueError] of a pool without workers. *)
Theorem init_lists_returns_iff :
  forall to_datetime Herbie ds fs max_threads sched L,
    ((exists b L',
         FastHerbie__init__ to_datetime Herbie (PyList ds) (PyList fs)
           max_threads sched L = (inr b, L'))
     <-> (ds <> [] /\ fs <> [] /\ 0 < max_threads)) /\
    ((exists L',
         FastHerbie__init__ to_datetime Herbie (PyList ds) (PyList fs)
           max_threads sched L = (inl ValueError_max_workers, L'))
     <-> (ds = [] \/ fs = [] \/ max_threads <= 0)).
Proof.
  intros to_datetime Herbie ds fs max_threads sched L.
  destruct (init_submit_cases to_datetime Herbie (PyList ds) (PyList fs)
              max_threads L _ _ _ _ eq_refl eq_refl eq_refl eq_refl)
    as (ds' & fs' & Hds & Hfs & Hsub).
  simpl in Hds, Hfs. inversion Hds; inversion Hfs; subst ds' fs'; clear Hds Hfs.
  rewrite !init_unfold, Hsub.
  set (tasks := Z.of_nat (List.length ds) * Z.of_nat (List.length fs)) in *.
  assert (Hpos : 0 < Z.min tasks max_threads <->
                 (ds <> [] /\ fs <> [] /\ 0 < max_threads)).
  { unfold tasks. destruct ds, fs; simpl List.length; split;
      try (intros (? & ? & ?); congruence); try lia.
    intros H. repeat split; try discriminate; lia. }
  destruct (Z.min tasks max_threads <=? 0) eqn:Hpool.
  - apply Z.leb_le in Hpool. split; split.
    + intros (b & L' & Heq); discriminate.
    + intros H. apply Hpos in H. lia.
    + intros _. destruct ds; [auto|]. destruct fs; [auto|].
      right; right. unfold tasks in Hpool. simpl List.length in Hpool. lia.
    + intros _. eauto.
  - apply Z.leb_gt in Hpool.
    destruct (init_collect_run (PyList ds) (PyList fs) tasks
                (flat_map (fun d => map (Herbie d) fs) ds) sched
                (L ++ [Info_working tasks (Z.min tasks max_threads)]))
      as (X & -> & _).
    split; split.
    + intros _. now apply Hpos.
    + intros _. eauto.
    + intros (L' & Heq); discriminate.
    + intros H. apply Hpos in Hpool. destruct Hpool as (? & ? & ?).
      destruct H as [->| [->|H]]; try congruence. lia.
Qed.

Lemma init_lists_returns_iff_witness :
  (exists b L',
      FastHerbie__init__ mock_to_datetime mock_Herbie
        (PyList [PyDatetime 1]) (PyList [PyInt 0]) 50 [] [] = (inr b, L')) /\
  (exists L',
      FastHerbie__init__ mock_to_datetime mock_Herbie
        (PyList [PyDatetime 1]) (PyList []) 50 [] []
      = (inl ValueError_max_workers, L')).
Proof.
  split.
  - apply (proj1 (init_lists_returns_iff mock_to_datetime mock_Herbie
                    [PyDatetime 1] [PyInt 0] 50 [] [])).
    repeat split; (discriminate || reflexivity).
  - apply (proj2 (init_lists_returns_iff mock_to_datetime mock_Herbie
                    [PyDatetime 1] [] 50 [] [])).
    right; left; reflexivity.
Defined.

(** X4.  The size of the pool does not change the batch: with the same
    completion order, any two positive values of [max_threads] give the
    same result (the same batch, or the same exception). *)
Theorem init_max_threads_irrelevant :
  forall to_datetime Herbie DATES fxx m1 m2 sched L,
    0 < m1 -> 0 < m2 ->
    fst (FastHerbie__init__ to_datetime Herbie DATES fxx m1 sched L)
    = fst (FastHerbie__init__ to_datetime Herbie DATES fxx m2 sched L).
Proof.
  intros to_datetime Herbie DATES fxx m1 m2 sched L H1 H2.
  rewrite !init_unfold.
  destruct (_validate_DATES to_datetime DATES) as [eD|sD] eqn:HD;
    [unfold init_submit, bind, lift; now rewrite HD|].
  destruct (_validate_fxx fxx) as [eF|sF] eqn:HF;
    [unfold init_submit, bind, lift; now rewrite HD, HF|].
  destruct (len DATES) as [eD|nD] eqn:HnD;
    [unfold init_submit, bind, lift; now rewrite HD, HF, HnD|].
  destruct (len fxx) as [eF|nF] eqn:HnF;
    [unfold init_submit, bind, lift; now rewrite HD, HF, HnD, HnF|].
  destruct (init_submit_cases to_datetime Herbie DATES fxx m1 L
              _ _ _ _ HD HF HnD HnF) as (ds & fs & Hds & Hfs & ->).
  destruct (init_submit_cases to_datetime Herbie DATES fxx m2 L
              _ _ _ _ HD HF HnD HnF) as (ds' & fs' & Hds' & Hfs' & ->).
  rewrite Hds in Hds'; rewrite Hfs in Hfs'.
  inversion Hds'; inversion Hfs'; subst ds' fs'.
  destruct (Z.min (nD * nF) m1 <=? 0) eqn:E1, (Z.min (nD * nF) m2 <=? 0) eqn:E2;
    try reflexivity;
    try (apply Z.leb_le in E1; apply Z.leb_gt in E2; lia);
    try (apply Z.leb_gt in E1; apply Z.leb_le in E2; lia).
  match goal with
  | |- fst (init_collect (?a, ?b, ?c, ?d) _ ?La) = fst (init_collect _ _ ?Lb) =>
      destruct (init_collect_run a b c d sched La) as (X1 & -> & _);
      destruct (init_collect_run a b c d sched Lb) as (X2 & -> & _)
  end.
  reflexivity.
Qed.

Lemma init_max_threads_irrelevant_witness :
  fst (FastHerbie__init__ mock_to_datetime mock_Herbie
         (PyList [PyDatetime 2; PyDatetime 1]) (PyList [PyInt 60; PyInt 0]) 1 [3]%nat [])
  = fst (FastHerbie__init__ mock_to_datetime mock_Herbie
           (PyList [PyDatetime 2; PyDatetime 1]) (PyList [PyInt 60; PyInt 0]) 50 [3]%nat []).
Proof.
  apply init_max_threads_irrelevant; reflexivity.
Defined.

(** X5.  The warning about missing files.  A batch that was built has
    logged "Could not find m/e GRIB files" exactly when some file is
    missing, with [m] the number of missing and [e] the number of
    existing files (not the number of tasks), and this is then the last
    line of the log. *)
Theorem init_warns_iff_missing :
  forall to_datetime Herbie DATES fxx max_threads sched L b L',
    FastHerbie__init__ to_datetime Herbie DATES fxx max_threads sched L = (inr b, L') ->
    exists X,
      L' = L ++ X /\
      (forall m e,
          In (Warning_could_not_find m e) X <->
          (self_file_not_exists b <> [] /\
           m = List.length (self_file_not_exists b) /\
           e = List.length (self_file_exists b))) /\
      (self_file_not_exists b <> [] ->
       last X (Info_working 0 0)
       = Warning_could_not_find (List.length (self_file_not_exists b))
                                (List.length (self_file_exists b))).
Proof.
  intros to_datetime Herbie DATES fxx max_threads sched L b L' Hinit.
  destruct (init_submit to_datetime Herbie DATES fxx max_threads L)
    as [[e|[[[sD sF] tasks] futures]] L1] eqn:Hsub;
    [rewrite init_unfold, Hsub in Hinit; discriminate|].
  rewrite init_unfold, Hsub in Hinit.
  pose proof (init_collect_log sD sF tasks futures sched L1) as Hlog.
  destruct (init_collect_run sD sF tasks futures sched L1) as (X0 & Heq & _).
  rewrite Heq in Hinit, Hlog. inversion Hinit; subst b L'; clear Hinit Heq.
  simpl snd in Hlog. simpl. rewrite Hlog. clear Hlog X0.
  apply init_submit_inv in Hsub. destruct Hsub as (_ & _ & _ & _ & _ & ->).
  set (missing := filter grib_is_None (resolved futures sched)) in *.
  set (existing := filter grib_is_not_None (resolved futures sched)) in *.
  set (errs := map Error_exception (failures (as_completed sched futures))) in *.
  set (count := Info_number_of_objects
                  (List.length (successes (as_completed sched futures)))) in *.
  assert (Herrs : forall m e, ~ In (Warning_could_not_find m e) errs)
    by (intros m e Hin; unfold errs in Hin; apply in_map_iff in Hin;
        destruct Hin as (? & ? & _); discriminate).
  destruct missing as [|H0 missing'] eqn:Hmiss; cbn [List.length Nat.ltb Nat.leb].
  - exists (Info_working tasks (Z.min tasks max_threads) :: errs ++ [count]).
    split; [rewrite <- !app_assoc; reflexivity|].
    split; [|congruence].
    intros m e; split; [|intros (? & _); congruence].
    intros [Hin|Hin]; [discriminate|].
    apply in_app_or in Hin. destruct Hin as [Hin|[Hin|[]]];
      [now apply Herrs in Hin | discriminate].
  - exists (Info_working tasks (Z.min tasks max_threads)
            :: errs ++ [count; Warning_could_not_find
                                 (S (List.length missing')) (List.length existing)]).
    split; [rewrite <- !app_assoc; reflexivity|].
    split.
    + intros m e; split.
      * intros [Hin|Hin]; [discriminate|].
        apply in_app_or in Hin. destruct Hin as [Hin|[Hin|[Hin|[]]]];
          [now apply Herrs in Hin | discriminate |].
        inversion Hin; subst. repeat split. discriminate.
      * intros (_ & -> & ->). right. apply in_or_app. right. right. now left.
    + intros _.
      replace (Info_working tasks (Z.min tasks max_threads)
               :: errs ++ [count; Warning_could_not_find
                                    (S (List.length missing')) (List.length existing)])
        with ((Info_working tasks (Z.min tasks max_threads) :: errs ++ [count])
              ++ [Warning_could_not_find
                    (S (List.length missing')) (List.length existing)])
        by (simpl; rewrite <- app_assoc; reflexivity).
      apply last_last.
Qed.

Lemma init_warns_iff_missing_witness :
  exists b L' X,
    FastHerbie__init__ mock_to_datetime mock_Herbie
      (PyList [PyDatetime 1]) (PyList [PyInt 60; PyInt 0]) 50 [] []
    = (inr b, L') /\
    L' = [] ++ X /\
    In (Warning_could_not_find 1 1) X.
Proof.
  destruct (init_warns_iff_missing mock_to_datetime mock_Herbie
              (PyList [PyDatetime 1]) (PyList [PyInt 60; PyInt 0]) 50 [] []
              _ _ eq_refl) as (X & HL & Hiff & _).
  eexists; eexists; exists X.
  split; [vm_compute; reflexivity|]. split; [exact HL|].
  apply Hiff. repeat split. discriminate.
Defined.

(** ** More on the latest-file finder *)

Lemma last_item_inv {A} (l : list A) (x : A) :
  last_item l = inr x -> exists l', l = l' ++ [x].
Proof.
  unfold last_item. destruct (rev l) as [|y r] eqn:Hrev; [discriminate|].
  intros Heq; inversion Heq; subst.
  exists (rev r). rewrite <- (rev_involutive l), Hrev. reflexivity.
Qed.


(** The last element of a (date, lead)-sorted list has the latest date. *)
Lemma sorted_last_latest (l : list HerbieObj) (x : HerbieObj) :
  StronglySorted date_fxx_le (l ++ [x]) ->
  forall y, In y l -> H_date y <= H_date x.
Proof.
  induction l as [|a l IH]; intros Hs y Hin; [contradiction|].
  simpl in Hs. inversion Hs as [|? ? Hs' Ha]; subst.
  destruct Hin as [->|Hin]; [|now apply IH].
  rewrite Forall_forall in Ha. apply date_fxx_le_date, Ha.
  apply in_or_app. right. now left.
Qed.

(** X6.  What [Herbie_latest] returns.  The object returned is one the
    constructor built for a timestamp of the window and lead 0, its file
    was found, and no object of the window whose file was found has a
    later date. *)
Theorem Herbie_latest_returns_latest :
  forall to_datetime Herbie n freq now sched L H L',
    Herbie_latest to_datetime Herbie n freq now sched L = (inr H, L') ->
    H_grib H <> None /\
    (exists t, In t (latest_DATES n freq now) /\
               Herbie (PyDatetime t) (PyInt 0) = inr H) /\
    (forall t H', In t (latest_DATES n freq now) ->
                  Herbie (PyDatetime t) (PyInt 0) = inr H' ->
                  H_grib H' <> None ->
                  H_date H' <= H_date H).
Proof.
  intros to_datetime Herbie n freq now sched L H L'.
  unfold Herbie_latest, bind, lift.
  destruct (init_submit_cases to_datetime Herbie
              (PyDatetimeIndex (latest_DATES n freq now)) (PyList [PyInt 0]) 50 L
              _ _ _ _ eq_refl eq_refl eq_refl eq_refl)
    as (ds & fs & Hds & Hfs & Hsub).
  simpl in Hds, Hfs. inversion Hds; inversion Hfs; subst ds fs; clear Hds Hfs.
  rewrite init_unfold, Hsub.
  destruct (Z.min _ 50 <=? 0); [discriminate|].
  match goal with
  | |- context [init_collect (?a, ?b, ?c, ?d) _ ?La] =>
      set (futures := d);
      destruct (init_collect_run a b c futures sched La) as (X & -> & _)
  end.
  cbn [self_file_exists].
  destruct (last_item _) as [e|H0] eqn:Hlast; [discriminate|].
  intros Heq; inversion Heq; subst H0 L'; clear Heq.
  destruct (last_item_inv _ _ Hlast) as (l' & Hl').
  assert (Hin : forall H', In H' (filter grib_is_not_None (resolved futures sched)) <->
                  H_grib H' <> None /\
                  exists t, In t (latest_DATES n freq now) /\
                            Herbie (PyDatetime t) (PyInt 0) = inr H').
  { intros H'. rewrite filter_In. unfold grib_is_not_None.
    assert (Hres : In H' (resolved futures sched) <->
                   exists t, In t (latest_DATES n freq now) /\
                             Herbie (PyDatetime t) (PyInt 0) = inr H').
    { split.
      - intros Hr. eapply Permutation_in in Hr; [|apply resolved_Permutation].
        apply In_successes in Hr. unfold futures in Hr.
        apply in_flat_map in Hr. destruct Hr as (d & Hd & Hr).
        apply in_map_iff in Hd. destruct Hd as (t & <- & Ht).
        simpl in Hr. destruct Hr as [Hr|[]]. eauto.
      - intros (t & Ht & Hr).
        eapply Permutation_in; [symmetry; apply resolved_Permutation|].
        apply In_successes. unfold futures. apply in_flat_map.
        exists (PyDatetime t). split; [now apply in_map|]. simpl. now left. }
    rewrite Hres. destruct (H_grib H'); split; intros [? ?]; split;
      auto; congruence. }
  assert (HinH : In H (filter grib_is_not_None (resolved futures sched)))
    by (rewrite Hl'; apply in_or_app; right; now left).
  apply Hin in HinH. destruct HinH as (Hg & Ht).
  split; [exact Hg|]. split; [exact Ht|].
  intros t H' Ht' HH' Hg'.
  assert (HinH' : In H' (filter grib_is_not_None (resolved futures sched)))
    by (apply Hin; eauto).
  rewrite Hl' in HinH'. apply in_app_or in HinH'.
  destruct HinH' as [HinH'|[->|[]]]; [|lia].
  eapply sorted_last_latest; [|exact HinH'].
  rewrite <- Hl'. apply filter_sorted, resolved_sorted.
Qed.

Lemma Herbie_latest_returns_latest_witness :
  H_grib {| H_date := 20; H_fxx := 0; H_grib := Some "subset.grib2" |} <> None /\
  (exists t, In t (latest_DATES 2 10 25) /\
             mock_Herbie (PyDatetime t) (PyInt 0)
             = inr {| H_date := 20; H_fxx := 0; H_grib := Some "subset.grib2" |}) /\
  (forall t H', In t (latest_DATES 2 10 25) ->
                mock_Herbie (PyDatetime t) (PyInt 0) = inr H' ->
                H_grib H' <> None ->
                H_date H' <= 20).
Proof.
  exact (Herbie_latest_returns_latest mock_to_datetime mock_Herbie 2 10 25
           [1]%nat [] _ _ eq_refl).
Defined.







(** ** More on the bulk download *)

(** X9.  [download] after [__init__].  On a batch that [__init__] built,
    [download] with a positive [max_threads] never raises, however many
    of the downloads do: the paths returned are, up to order, the results
    of the downloads that did not raise, the others are logged as errors,
    and with no existing file the result is the empty list. *)
Theorem download_after_init :
  forall to_datetime Herbie H_download DATES fxx mt sched L b L1
         search max_threads sched' ,
    FastHerbie__init__ to_datetime Herbie DATES fxx mt sched L = (inr b, L1) ->
    0 < max_threads ->
    exists paths L',
      download H_download b search max_threads sched' L1 = (inr paths, L') /\
      Permutation paths
        (successes (map (fun H => H_download H search) (self_file_exists b))) /\
      Permutation (logged_errors L')
        (logged_errors L1
         ++ failures (map (fun H => H_download H search) (self_file_exists b))) /\
      (List.length paths + (List.length (logged_errors L')
                            - List.length (logged_errors L1)))%nat
      = List.length (self_file_exists b) /\
      (self_file_exists b = [] -> paths = []).
Proof.
  intros to_datetime Herbie H_download DATES fxx mt sched L b L1
         search max_threads sched' Hinit Hmt.
  assert (Htasks : 0 < self_tasks b).
  { destruct (init_submit to_datetime Herbie DATES fxx mt L)
      as [[e|[[[sD sF] tasks] futures]] L0] eqn:Hsub;
      [rewrite init_unfold, Hsub in Hinit; discriminate|].
    destruct (init_returns _ _ _ _ _ sched _ _ _ _ _ _ Hsub) as (L2 & Heq & _).
    rewrite Heq in Hinit. inversion Hinit; subst; simpl.
    apply init_submit_inv in Hsub. destruct Hsub as (_ & _ & _ & Hp & _). lia. }
  set (futures := map (fun H => H_download H search) (self_file_exists b)).
  pose proof (failures_Permutation _ _ (as_completed_Permutation sched' futures)) as Hf.
  pose proof (successes_Permutation _ _ (as_completed_Permutation sched' futures)) as Hs.
  unfold download, bind, lift, log, ThreadPoolExecutor.
  replace (Z.min (self_tasks b) max_threads <=? 0) with false
    by (symmetry; apply Z.leb_gt; lia).
  fold futures. rewrite collect_run. unfold ret. simpl app.
  eexists; eexists. split; [reflexivity|].
  rewrite !logged_errors_app, logged_errors_map. simpl. rewrite app_nil_r.
  split; [exact Hs|]. split; [now apply Permutation_app_head|]. split.
  - rewrite length_app, (Permutation_length Hs), (Permutation_length Hf).
    pose proof (successes_failures_length futures) as Hlen.
    assert (Hmap : List.length futures = List.length (self_file_exists b))
      by apply length_map.
    lia.
  - intros Hnil. apply Permutation_nil. rewrite Hs.
    unfold futures. rewrite Hnil. reflexivity.
Qed.

Lemma download_after_init_witness :
  exists b L1 paths L',
    FastHerbie__init__ mock_to_datetime mock_Herbie
      (PyList [PyDatetime 1]) (PyList [PyInt 0; PyInt 6; PyInt 60]) 50 [] []
    = (inr b, L1) /\
    download mock_download b None 20 [1]%nat L1 = (inr paths, L') /\
    Permutation paths ["data/subset.grib2"%string] /\
    (self_file_exists b = [] -> paths = []).
Proof.
  destruct (download_after_init mock_to_datetime mock_Herbie mock_download
              (PyList [PyDatetime 1]) (PyList [PyInt 0; PyInt 6; PyInt 60]) 50 [] []
              _ _ None 20 [1]%nat eq_refl eq_refl)
    as (paths & L' & Hd & Hp & _ & _ & Hnil).
  eexists; eexists; exists paths, L'.
  split; [vm_compute; reflexivity|].
  split; [exact Hd|]. split; [exact Hp | exact Hnil].
Defined.

(** X10.  [download] without workers.  With [max_threads <= 0] (or on a
    batch whose [tasks] is not positive) [download] raises the
    [ValueError] of a pool without workers after logging the number of
    tasks; no download is attempted. *)
Theorem download_no_workers :
  forall H_download self search max_threads sched L,
    Z.min (self_tasks self) max_threads <= 0 ->
    download H_download self search max_threads sched L
    = (inl ValueError_max_workers,
       L ++ [Info_working (self_tasks self) (Z.min (self_tasks self) max_threads)]).
Proof.
  intros H_download self search max_threads sched L Hpool.
  unfold download, bind, lift, log, ThreadPoolExecutor.
  apply Z.leb_le in Hpool. now rewrite Hpool.
Qed.

Lemma download_no_workers_witness :
  download mock_download
    {| self_DATES := PyList [PyDatetime 1];
       self_fxx := PyList [PyInt 0];
       self_tasks := 1;
       self_objects := [{| H_date := 1; H_fxx := 0; H_grib := Some "subset.grib2" |}];
       self_file_exists := [{| H_date := 1; H_fxx := 0; H_grib := Some "subset.grib2" |}];
       self_file_not_exists := [] |}
    None 0 [] []
  = (inl ValueError_max_workers, [] ++ [Info_working 1 (Z.min 1 0)]).
Proof.
  apply download_no_workers. discriminate.
Defined.

(** ** More on the tabular view *)

(** Cutting a list into consecutive pieces of [m] elements and gluing
    the pieces back gives the list. *)
Lemma chunks_concat {A} (m k : nat) (l : list A) :
  (List.length l <= k * m)%nat ->
  List.concat (map (fun i => firstn m (skipn (i * m) l)) (seq 0 k)) = l.
Proof.
  revert l; induction k as [|k IH]; intros l Hlen.
  - destruct l; [reflexivity | simpl in Hlen; lia].
  - rewrite <- cons_seq, <- seq_shift. cbn [map List.concat]. rewrite map_map.
    rewrite Nat.mul_0_l. cbn [skipn].
    transitivity (firstn m l ++ skipn m l); [|apply firstn_skipn]. f_equal.
    rewrite <- (IH (skipn m l)) by (rewrite length_skipn; lia).
    f_equal. apply map_ext. intros i.
    rewrite skipn_skipn. do 2 f_equal. lia.
Qed.

(** The pieces of a concatenation of rows of [m] elements are the rows. *)
Lemma chunks_of_rows {A} (m : nat) (rows : list (list A)) :
  Forall (fun row => List.length row = m) rows ->
  map (fun i => firstn m (skipn (i * m) (List.concat rows))) (seq 0 (List.length rows))
  = rows.
Proof.
  induction 1 as [|row rows Hrow Hrows IH]; [reflexivity|].
  subst m.
  cbn [List.length]. rewrite <- cons_seq, <- seq_shift. cbn [map List.concat].
  rewrite map_map.
  rewrite Nat.mul_0_l. cbn [skipn].
  rewrite firstn_app, Nat.sub_diag, firstn_all, firstn_O, app_nil_r.
  f_equal. rewrite <- IH at 2. apply map_ext. intros i.
  replace (S i * List.length row)%nat
    with (i * List.length row + List.length row)%nat by lia.
  rewrite <- skipn_skipn.
  replace (skipn (List.length row) (row ++ List.concat rows)) with (List.concat rows)
    by (rewrite skipn_app, skipn_all, Nat.sub_diag; reflexivity).
  reflexivity.
Qed.

Lemma len_nonneg (v : pyval) (n : Z) : len v = inr n -> 0 <= n.
Proof.
  intros H. destruct (len_iter _ _ H) as (l & _ & <-). lia.
Qed.

(** The rows of [df]: the pieces of [self.objects] of [len(self.fxx)]
    elements, as indices into the list. *)
Lemma df_data_chunks (self : FastHerbie) (L : Z) (fr : DataFrame) :
  len (self_fxx self) = inr L ->
  df self = inr fr ->
  0 < L /\
  df_index fr = self_DATES self /\
  df_data fr =
  map (fun i => firstn (Z.to_nat L) (skipn (i * Z.to_nat L) (self_objects self)))
      (seq 0 (Z.to_nat (range_len 0 (Z.of_nat (List.length (self_objects self))) L))).
Proof.
  intros HL. pose proof (len_nonneg _ _ HL) as H0.
  unfold df. rewrite HL. cbn [ebind]. unfold range0.
  destruct (L =? 0) eqn:E; [discriminate|]. apply Z.eqb_neq in E.
  cbn [ebind].
  destruct (iter (self_fxx self)) as [e|fs]; [discriminate|]. cbn [ebind].
  destruct (format_all fs) as [e|cols]; [discriminate|]. cbn [ebind].
  intros Heq; inversion Heq; subst fr; clear Heq. cbn [df_data df_index].
  split; [lia|]. split; [reflexivity|].
  unfold range_elems. rewrite map_map. apply map_ext. intros i.
  unfold slice. do 2 f_equal. rewrite Z.add_0_l, Z2Nat.inj_mul by lia.
  now rewrite Nat2Z.id.
Qed.

(** X11.  The rows of [df].  When [df] returns, its rows are consecutive
    pieces of [self.objects]: glued together they give back the sorted
    objects, no row is empty or longer than [len(self.fxx)], and every
    row but the last has exactly [len(self.fxx)] objects.  The row labels
    are [self.DATES], as the caller gave them. *)
Theorem df_rows_are_chunks :
  forall self L fr,
    len (self_fxx self) = inr L ->
    df self = inr fr ->
    List.concat (df_data fr) = self_objects self /\
    df_index fr = self_DATES self /\
    Forall (fun row => (0 < List.length row)%nat /\ Z.of_nat (List.length row) <= L)
           (df_data fr) /\
    (forall i row, nth_error (df_data fr) i = Some row ->
                   (S i < List.length (df_data fr))%nat ->
                   Z.of_nat (List.length row) = L).
Proof.
  intros self L fr HL Hdf.
  destruct (df_data_chunks self L fr HL Hdf) as (Hpos & Hidx & Hdata).
  set (l := self_objects self) in *.
  set (n := Z.of_nat (List.length l)) in *.
  set (m := Z.to_nat L) in *.
  set (k := Z.to_nat (range_len 0 n L)) in *.
  assert (Hm : (0 < m)%nat) by (unfold m; lia).
  assert (Hk : n = 0 /\ k = 0%nat \/
               0 < n /\ Z.of_nat k = (n - 1) / L + 1).
  { unfold k, range_len. apply Z.ltb_lt in Hpos. rewrite Hpos.
    destruct (0 <? n) eqn:En.
    - apply Z.ltb_lt in En. right. split; [exact En|].
      replace (n - 0 - 1) with (n - 1) by lia.
      assert (0 <= (n - 1) / L) by (apply Z.div_pos; lia). lia.
    - apply Z.ltb_ge in En. left. unfold n in *. split; [lia | reflexivity]. }
  assert (Hcover : (List.length l <= k * m)%nat).
  { destruct Hk as [[Hn _]|[Hn Hk]]; [unfold n in Hn; lia|].
    pose proof (Z.mul_succ_div_gt (n - 1) L ltac:(lia)) as Hgt.
    unfold n, m in *. nia. }
  assert (Hfull : forall i, (S i < k)%nat -> (S i * m <= List.length l)%nat).
  { intros i Hi. destruct Hk as [[_ Hk]|[Hn Hk]]; [lia|].
    pose proof (Z.mul_div_le (n - 1) L ltac:(lia)) as Hle.
    unfold n, m in *. nia. }
  rewrite Hdata. split; [now apply chunks_concat|]. split; [exact Hidx|]. split.
  - rewrite Forall_forall. intros row Hin.
    apply in_map_iff in Hin. destruct Hin as (i & <- & Hi). apply in_seq in Hi.
    rewrite length_firstn, length_skipn. split; [|unfold m; lia].
    assert (Hstart : (i * m < List.length l)%nat).
    { destruct Hk as [[_ Hk]|[Hn Hk]]; [lia|].
      pose proof (Z.mul_div_le (n - 1) L ltac:(lia)) as Hle.
      unfold n, m in *. nia. }
    lia.
  - intros i row Hnth Hi. rewrite length_map, length_seq in Hi.
    rewrite nth_error_map, nth_error_seq in Hnth.
    destruct (i <? k)%nat eqn:Ei; [|discriminate].
    simpl in Hnth. inversion Hnth; subst row.
    rewrite length_firstn, length_skipn.
    specialize (Hfull i Hi). unfold m in *. lia.
Qed.

Lemma df_rows_are_chunks_witness :
  List.concat
    [[{| H_date := 1; H_fxx := 0; H_grib := Some "subset.grib2" |};
      {| H_date := 2; H_fxx := 0; H_grib := Some "subset.grib2" |}];
     [{| H_date := 2; H_fxx := 6; H_grib := Some "subset.grib2" |}]]
  = [{| H_date := 1; H_fxx := 0; H_grib := Some "subset.grib2" |};
     {| H_date := 2; H_fxx := 0; H_grib := Some "subset.grib2" |};
     {| H_date := 2; H_fxx := 6; H_grib := Some "subset.grib2" |}] /\
  Forall (fun row => (0 < List.length row)%nat /\ Z.of_nat (List.length row) <= 2)
    [[{| H_date := 1; H_fxx := 0; H_grib := Some "subset.grib2" |};
      {| H_date := 2; H_fxx := 0; H_grib := Some "subset.grib2" |}];
     [{| H_date := 2; H_fxx := 6; H_grib := Some "subset.grib2" |}]].
Proof.
  destruct (df_rows_are_chunks
              {| self_DATES := PyList [PyDatetime 1; PyDatetime 2];
                 self_fxx := PyList [PyInt 0; PyInt 6];
                 self_tasks := 4;
                 self_objects :=
                   [{| H_date := 1; H_fxx := 0; H_grib := Some "subset.grib2" |};
                    {| H_date := 2; H_fxx := 0; H_grib := Some "subset.grib2" |};
                    {| H_date := 2; H_fxx := 6; H_grib := Some "subset.grib2" |}];
                 self_file_exists :=
                   [{| H_date := 1; H_fxx := 0; H_grib := Some "subset.grib2" |};
                    {| H_date := 2; H_fxx := 0; H_grib := Some "subset.grib2" |};
                    {| H_date := 2; H_fxx := 6; H_grib := Some "subset.grib2" |}];
                 self_file_not_exists := [] |}
              2 _ eq_refl eq_refl) as (Hcat & _ & Hrows & _).
  split; [exact Hcat | exact Hrows].
Defined.

Lemma format_all_ints (ns : list Z) :
  exists cols, format_all (map PyInt ns) = inr cols /\
               List.length cols = List.length ns.
Proof.
  induction ns as [|n ns (cols & Hc & Hl)]; simpl; [now exists []|].
  rewrite Hc. simpl. eexists. split; [reflexivity|]. simpl. now rewrite Hl.
Qed.

Lemma successes_all {A} (rs : list A) :
  successes (map inr rs) = rs /\ failures (map (@inr exn A) rs) = [].
Proof. induction rs as [|r rs [IH1 IH2]]; simpl; [auto|]. now rewrite IH1. Qed.

Lemma successes_app {A} (l1 l2 : list (exn + A)) :
  successes (l1 ++ l2) = successes l1 ++ successes l2.
Proof. induction l1 as [|[e|r] l1 IH]; simpl; congruence. Qed.

(** The objects of a grid of futures that all returned, row by row. *)
Lemma successes_grid {A B} (f : A -> list (exn + B)) (ds : list A)
    (rows : list (list B)) (c : nat) :
  map f ds = map (map inr) rows ->
  (forall d, List.length (f d) = c) ->
  successes (flat_map f ds) = List.concat rows /\
  Forall (fun row => List.length row = c) rows /\
  List.length rows = List.length ds.
Proof.
  revert rows; induction ds as [|d ds IH]; intros [|row rows] Heq Hc;
    try discriminate; simpl in *.
  - auto.
  - inversion Heq as [[Hrow Hrest]].
    destruct (IH rows Hrest Hc) as (IH1 & IH2 & IH3).
    rewrite successes_app, IH1, Hrow, (proj1 (successes_all row)).
    split; [reflexivity|]. split; [|congruence].
    constructor; [|exact IH2].
    rewrite <- (Hc d), Hrow. now rewrite length_map.
Qed.

(** X12.  [df] on ascending inputs.  If no task fails and the objects,
    taken date by date and lead by lead in the caller's order, are
    already in (date, lead) order, then [df] returns and its row [i] holds
    the objects of [DATES[i]], one per lead in the caller's order: cell
    (i,j) is the object of task ([DATES[i]], [fxx[j]]).  (The objects are
    those of a data handle determined by its date and lead.) *)
Theorem df_ascending_inputs :
  forall to_datetime Herbie,
    (forall d1 f1 d2 f2 H1 H2,
        Herbie d1 f1 = inr H1 -> Herbie d2 f2 = inr H2 ->
        H_date H1 = H_date H2 -> H_fxx H1 = H_fxx H2 -> H1 = H2) ->
    forall ds ns max_threads sched L rows,
      0 < max_threads -> ds <> [] -> ns <> [] ->
      map (fun d => map (Herbie d) (map PyInt ns)) ds = map (map inr) rows ->
      StronglySorted date_fxx_le (List.concat rows) ->
      exists b L' fr,
        FastHerbie__init__ to_datetime Herbie (PyList ds) (PyList (map PyInt ns))
          max_threads sched L = (inr b, L') /\
        df b = inr fr /\
        df_data fr = rows /\
        df_index fr = PyList ds /\
        format_all (map PyInt ns) = inr (df_columns fr).
Proof.
  intros to_datetime Herbie Hkey ds ns max_threads sched L rows
         Hmt Hds Hns Hrows Hsorted.
  destruct (init_submit_cases to_datetime Herbie (PyList ds) (PyList (map PyInt ns))
              max_threads L _ _ _ _ eq_refl eq_refl eq_refl eq_refl)
    as (ds' & fs' & Hd' & Hf' & Hsub).
  simpl in Hd', Hf'. inversion Hd'; inversion Hf'; subst ds' fs'; clear Hd' Hf'.
  rewrite length_map in Hsub.
  set (tasks := Z.of_nat (List.length ds) * Z.of_nat (List.length ns)) in *.
  assert (Htasks : 0 < tasks)
    by (unfold tasks; destruct ds, ns; simpl List.length; try congruence; lia).
  replace (Z.min tasks max_threads <=? 0) with false in Hsub
    by (symmetry; apply Z.leb_gt; lia).
  set (futures := flat_map (fun d => map (Herbie d) (map PyInt ns)) ds) in *.
  destruct (init_returns _ _ _ _ _ sched _ _ _ _ _ _ Hsub) as (L' & Hinit & _).
  destruct (successes_grid (fun d => map (Herbie d) (map PyInt ns)) ds rows
              (List.length ns) Hrows) as (Hsucc & Hlen & Hcount);
    [intros d; now rewrite !length_map|].
  fold futures in Hsucc.
  assert (Hres : resolved futures sched = List.concat rows).
  { apply sorted_Permutation_eq; [|apply resolved_sorted | exact Hsorted |].
    - assert (Hfut : forall H, In H (resolved futures sched) ->
                               exists d f, Herbie d f = inr H).
      { intros H Hin.
        eapply Permutation_in in Hin; [|apply resolved_Permutation].
        apply In_successes in Hin. unfold futures in Hin.
        apply in_flat_map in Hin. destruct Hin as (d & _ & Hin).
        apply in_map_iff in Hin. destruct Hin as (f & Hf & _). eauto. }
      intros H1 H2 Hi1 Hi2.
      destruct (Hfut _ Hi1) as (d1 & f1 & E1).
      destruct (Hfut _ Hi2) as (d2 & f2 & E2). eauto.
    - rewrite resolved_Permutation, Hsucc. reflexivity. }
  rewrite Hres in Hinit.
  destruct (format_all_ints ns) as (cols & Hcols & _).
  eexists; exists L'; eexists. split; [exact Hinit|].
  assert (HL : 0 < Z.of_nat (List.length ns)) by (destruct ns; simpl; [congruence | lia]).
  unfold df. cbn [self_fxx self_objects self_DATES len iter ebind].
  rewrite length_map. unfold range0.
  replace (Z.of_nat (List.length ns) =? 0) with false by (symmetry; apply Z.eqb_neq; lia).
  cbn [ebind]. rewrite Hcols. cbn [ebind].
  split; [reflexivity|]. cbn [df_data df_index df_columns].
  split; [|split; reflexivity].
  unfold range_elems. rewrite map_map.
  assert (Hn : List.length (List.concat rows)
               = (List.length rows * List.length ns)%nat).
  { clear - Hlen. induction Hlen as [|row rows Hrow _ IH]; simpl; [reflexivity|].
    rewrite length_app, IH, Hrow. reflexivity. }
  assert (Hk : Z.to_nat (range_len 0 (Z.of_nat (List.length (List.concat rows)))
                                   (Z.of_nat (List.length ns)))
               = List.length rows).
  { unfold range_len. apply Z.ltb_lt in HL. rewrite HL. apply Z.ltb_lt in HL.
    rewrite Hn, Hcount.
    assert (Hd : (0 < List.length ds)%nat) by (destruct ds; simpl; [congruence | lia]).
    replace (0 <? Z.of_nat (List.length ds * List.length ns)) with true
      by (symmetry; apply Z.ltb_lt; nia).
    replace (Z.of_nat (List.length ds * List.length ns) - 0 - 1)
      with ((Z.of_nat (List.length ds) - 1) * Z.of_nat (List.length ns)
            + (Z.of_nat (List.length ns) - 1)) by nia.
    rewrite Z.div_add_l, Z.div_small by lia. lia. }
  rewrite Hk. rewrite <- (chunks_of_rows (List.length ns) rows Hlen) at 2.
  apply map_ext. intros i. unfold slice.
  rewrite Z.add_0_l, Z2Nat.inj_mul, !Nat2Z.id by lia. reflexivity.
Qed.

Lemma df_ascending_inputs_witness :
  exists b L' fr,
    FastHerbie__init__ mock_to_datetime mock_Herbie
      (PyList [PyDatetime 1; PyDatetime 2]) (PyList (map PyInt [0; 6]))
      50 [3; 1]%nat [] = (inr b, L') /\
    df b = inr fr /\
    df_data fr =
      [[{| H_date := 1; H_fxx := 0; H_grib := Some "subset.grib2" |};
        {| H_date := 1; H_fxx := 6; H_grib := Some "subset.grib2" |}];
       [{| H_date := 2; H_fxx := 0; H_grib := Some "subset.grib2" |};
        {| H_date := 2; H_fxx := 6; H_grib := Some "subset.grib2" |}]] /\
    df_index fr = PyList [PyDatetime 1; PyDatetime 2] /\
    format_all (map PyInt [0; 6]) = inr (df_columns fr).
Proof.
  refine (df_ascending_inputs mock_to_datetime mock_Herbie mock_Herbie_keyed
            [PyDatetime 1; PyDatetime 2] [0; 6] 50 [3; 1]%nat []
            [[{| H_date := 1; H_fxx := 0; H_grib := Some "subset.grib2" |};
              {| H_date := 1; H_fxx := 6; H_grib := Some "subset.grib2" |}];
             [{| H_date := 2; H_fxx := 0; H_grib := Some "subset.grib2" |};
              {| H_date := 2; H_fxx := 6; H_grib := Some "subset.grib2" |}]]
            eq_refl _ _ eq_refl _); try discriminate.
  repeat constructor; unfold date_fxx_le; simpl; lia.
Defined.




(** ** More on the input normaliser *)

(** X14.  The normalisers are idempotent and return list-likes.  What
    [_validate_fxx] returns is a list or a range, and is returned
    unchanged if validated again; what [_validate_DATES] returns is a
    list or a [DatetimeIndex], and is returned unchanged if validated
    again.  An integer (or a boolean, which is an [int]) becomes the
    one-element list holding it, and the error of [_validate_fxx] names
    the value it was given. *)
Theorem validators_idempotent :
  forall to_datetime,
    (forall fxx r,
        _validate_fxx fxx = inr r ->
        isinstance_list_range r = true /\
        _validate_fxx r = inr r /\
        r = (if isinstance_int fxx then PyList [fxx] else fxx)) /\
    (forall fxx e,
        _validate_fxx fxx = inl e ->
        e = ValueError_fxx fxx /\
        isinstance_int fxx = false /\ isinstance_list_range fxx = false) /\
    (forall DATES r,
        _validate_DATES to_datetime DATES = inr r ->
        isinstance_list_DatetimeIndex r = true /\
        _validate_DATES to_datetime r = inr r).
Proof.
  intros to_datetime. split; [|split].
  - intros fxx r. unfold _validate_fxx.
    destruct fxx; simpl; intros Heq; inversion Heq; subst; auto.
  - intros fxx e. unfold _validate_fxx.
    destruct fxx; simpl; intros Heq; inversion Heq; subst; auto.
  - intros DATES r. unfold _validate_DATES.
    destruct (coerce_DATES to_datetime DATES) as [e|v]; simpl; [discriminate|].
    destruct v; simpl; intros Heq; inversion Heq; subst; auto.
Qed.

Lemma validators_idempotent_witness :
  (isinstance_list_range (PyList [PyBool true]) = true /\
   _validate_fxx (PyList [PyBool true]) = inr (PyList [PyBool true]) /\
   PyList [PyBool true]
   = (if isinstance_int (PyBool true) then PyList [PyBool true] else PyBool true)) /\
  (ValueError_fxx PyNone = ValueError_fxx PyNone /\
   isinstance_int PyNone = false /\ isinstance_list_range PyNone = false) /\
  (isinstance_list_DatetimeIndex (PyList [PyDatetime 1609459200000000000]) = true /\
   _validate_DATES mock_to_datetime (PyList [PyDatetime 1609459200000000000])
   = inr (PyList [PyDatetime 1609459200000000000])).
Proof.
  destruct (validators_idempotent mock_to_datetime) as (Hf & He & Hd).
  split; [apply (Hf (PyBool true)); reflexivity|].
  split; [apply (He PyNone); reflexivity|].
  apply (Hd (PyStr "2021-01-01")); reflexivity.
Defined.

(** ** The combined inventory *)

Lemma inventory_loop_app {Row} (H_inventory : HerbieObj -> option string -> exn + list Row)
    (Hs : list HerbieObj) (search : option string) dfs :
  inventory_loop Row H_inventory Hs search dfs =
  ebind (inventory_loop Row H_inventory Hs search [])
        (fun tabs => inr (dfs ++ tabs)).
Proof.
  revert dfs; induction Hs as [|i Hs IH]; intros dfs; simpl.
  - now rewrite app_nil_r.
  - destruct (H_inventory i search) as [e|df]; simpl; [reflexivity|].
    rewrite (IH (dfs ++ _)), (IH [_]).
    destruct (inventory_loop Row H_inventory Hs search []); simpl; [reflexivity|].
    now rewrite <- app_assoc.
Qed.

(** X15.  What [inventory] returns.  When the inventory of every
    existing file is read, and there is at least one, [inventory]
    returns the rows of all of them in the (date, lead) order of
    [file_exists], each table's rows kept in order and tagged with the
    [grib] of their object; the number of rows is the sum over the
    files. *)
Theorem inventory_returns :
  forall Row (H_inventory : HerbieObj -> option string -> exn + list Row)
         self search tabs,
    self_file_exists self <> [] ->
    map (fun i => H_inventory i search) (self_file_exists self) = map inr tabs ->
    exists rows,
      inventory Row H_inventory self search = inr rows /\
      rows = List.concat
               (map (fun it => assign_FILE Row (snd it) (H_grib (fst it)))
                    (combine (self_file_exists self) tabs)) /\
      map fst rows = List.concat tabs /\
      Forall (fun r => exists i, In i (self_file_exists self) /\ snd r = H_grib i) rows.
Proof.
  intros Row H_inventory self search tabs Hne Htabs.
  unfold inventory.
  set (Hs := self_file_exists self) in *.
  assert (Hloop : inventory_loop Row H_inventory Hs search [] =
                  inr (map (fun it => assign_FILE Row (snd it) (H_grib (fst it)))
                           (combine Hs tabs))).
  { clear Hne. revert tabs Htabs; induction Hs as [|i Hs IH]; intros [|df tabs] Htabs;
      try discriminate; simpl in *; [reflexivity|].
    inversion Htabs as [[Hi Hrest]]. rewrite Hi. simpl.
    rewrite inventory_loop_app, (IH tabs Hrest). reflexivity. }
  rewrite Hloop.
  exists (List.concat (map (fun it => assign_FILE Row (snd it) (H_grib (fst it)))
                           (List.combine Hs tabs))).
  split.
  - simpl. destruct Hs as [|i Hs]; [congruence|].
    destruct tabs as [|df tabs]; [discriminate|]. reflexivity.
  - split; [reflexivity|]. split.
    + clear Hloop Hne. revert tabs Htabs; induction Hs as [|i Hs IH];
        intros [|df tabs] Htabs; try discriminate; simpl in *; [reflexivity|].
      inversion Htabs as [[Hi Hrest]].
      rewrite map_app, (IH tabs Hrest). f_equal.
      unfold assign_FILE. rewrite map_map. simpl. apply map_id.
    + rewrite Forall_forall. intros r Hr.
      apply in_concat in Hr. destruct Hr as (tab & Htab & Hr).
      apply in_map_iff in Htab. destruct Htab as ([i df] & <- & Hin).
      apply in_combine_l in Hin. unfold assign_FILE in Hr. simpl in Hr.
      apply in_map_iff in Hr. destruct Hr as (r0 & <- & _). eauto.
Qed.

(** X16.  How [inventory] fails.  With no existing file it raises the
    [ValueError] of [pd.concat] on an empty list.  And nothing isolates
    the files from one another: the first file, in the order of
    [file_exists], whose inventory raises makes the call raise that
    exception, whatever the files after it would return. *)
Theorem inventory_raises :
  forall Row (H_inventory : HerbieObj -> option string -> exn + list Row)
         self search,
    (self_file_exists self = [] ->
     inventory Row H_inventory self search
     = inl (Exception "ValueError: No objects to concatenate")) /\
    (forall before i after tabs e,
        self_file_exists self = before ++ i :: after ->
        map (fun j => H_inventory j search) before = map inr tabs ->
        H_inventory i search = inl e ->
        inventory Row H_inventory self search = inl e).
Proof.
  intros Row H_inventory self search. unfold inventory. split.
  - intros ->. reflexivity.
  - intros before i after tabs e -> Hbefore Hi.
    assert (Hloop : forall dfs,
               inventory_loop Row H_inventory (before ++ i :: after) search dfs = inl e).
    { revert tabs Hbefore; induction before as [|j before IH];
        intros [|df tabs] Hbefore dfs; try discriminate; simpl in *.
      - now rewrite Hi.
      - inversion Hbefore as [[Hj Hrest]]. rewrite Hj. simpl. eauto. }
    now rewrite Hloop.
Qed.

Lemma inventory_returns_witness :
  exists rows,
    inventory string mock_inventory
      {| self_DATES := PyList [PyDatetime 1];
         self_fxx := PyList [PyInt 0; PyInt 12];
         self_tasks := 2;
         self_objects :=
           [{| H_date := 1; H_fxx := 0; H_grib := Some "a.grib2" |};
            {| H_date := 1; H_fxx := 12; H_grib := Some "b.grib2" |}];
         self_file_exists :=
           [{| H_date := 1; H_fxx := 0; H_grib := Some "a.grib2" |};
            {| H_date := 1; H_fxx := 12; H_grib := Some "b.grib2" |}];
         self_file_not_exists := [] |} None = inr rows /\
    rows = [("TMP:2 m", Some "a.grib2"); ("UGRD:10 m", Some "a.grib2");
            ("TMP:2 m", Some "b.grib2"); ("UGRD:10 m", Some "b.grib2")]%string /\
    map fst rows = ["TMP:2 m"; "UGRD:10 m"; "TMP:2 m"; "UGRD:10 m"]%string.
Proof.
  destruct (inventory_returns string mock_inventory
              {| self_DATES := PyList [PyDatetime 1];
                 self_fxx := PyList [PyInt 0; PyInt 12];
                 self_tasks := 2;
                 self_objects :=
                   [{| H_date := 1; H_fxx := 0; H_grib := Some "a.grib2" |};
                    {| H_date := 1; H_fxx := 12; H_grib := Some "b.grib2" |}];
                 self_file_exists :=
                   [{| H_date := 1; H_fxx := 0; H_grib := Some "a.grib2" |};
                    {| H_date := 1; H_fxx := 12; H_grib := Some "b.grib2" |}];
                 self_file_not_exists := [] |} None
              [["TMP:2 m"; "UGRD:10 m"]; ["TMP:2 m"; "UGRD:10 m"]]%string
              ltac:(discriminate) eq_refl) as (rows & Hinv & Hrows & Hfst & _).
  exists rows. split; [exact Hinv|]. split; [exact Hrows | exact Hfst].
Defined.

Lemma inventory_raises_witness :
  inventory string mock_inventory
    {| self_DATES := PyList [PyDatetime 1];
       self_fxx := PyList [PyInt 60];
       self_tasks := 1;
       self_objects := [{| H_date := 1; H_fxx := 60; H_grib := None |}];
       self_file_exists := [];
       self_file_not_exists := [{| H_date := 1; H_fxx := 60; H_grib := None |}] |} None
  = inl (Exception "ValueError: No objects to concatenate") /\
  inventory string mock_inventory
    {| self_DATES := PyList [PyDatetime 1];
       self_fxx := PyList [PyInt 0; PyInt 6; PyInt 12];
       self_tasks := 3;
       self_objects :=
         [{| H_date := 1; H_fxx := 0; H_grib := Some "a.grib2" |};
          {| H_date := 1; H_fxx := 6; H_grib := Some "b.grib2" |};
          {| H_date := 1; H_fxx := 12; H_grib := Some "c.grib2" |}];
       self_file_exists :=
         [{| H_date := 1; H_fxx := 0; H_grib := Some "a.grib2" |};
          {| H_date := 1; H_fxx := 6; H_grib := Some "b.grib2" |};
          {| H_date := 1; H_fxx := 12; H_grib := Some "c.grib2" |}];
       self_file_not_exists := [] |} None
  = inl (Exception "no index file").
Proof.
  split.
  - apply (inventory_raises string mock_inventory). reflexivity.
  - apply (proj2 (inventory_raises string mock_inventory _ None)
             [{| H_date := 1; H_fxx := 0; H_grib := Some "a.grib2" |}]
             {| H_date := 1; H_fxx := 6; H_grib := Some "b.grib2" |}
             [{| H_date := 1; H_fxx := 12; H_grib := Some "c.grib2" |}]
             [["TMP:2 m"; "UGRD:10 m"]]%string); reflexivity.
Defined.

(** ** Reading into datasets *)

Section XarrayProperties.

Variable Dataset : Type.
Variable H_xarray : HerbieObj -> option string -> exn + opened Dataset.
Variable level_key : Dataset -> exn + string.
Variable step_key : Dataset -> exn + Z.
Variable time_key : Dataset -> exn + Z.
Variable combine_nested : list (list Dataset) -> bool -> exn + Dataset.
Variable squeeze : Dataset -> Dataset.

Lemma group_of_append (key k : string) (ds : Dataset)
    (hypercubes : list (string * list Dataset)) :
  group_of k (hypercubes_append key ds hypercubes) =
  if String.eqb key k then group_of k hypercubes ++ [ds] else group_of k hypercubes.
Proof.
  induction hypercubes as [|[k0 l] rest IH]; simpl.
  - destruct (String.eqb key k); reflexivity.
  - destruct (String.eqb k0 key) eqn:E0; simpl.
    + apply String.eqb_eq in E0. subst k0.
      destruct (String.eqb key k); reflexivity.
    + rewrite IH. destruct (String.eqb k0 k) eqn:E1; [|reflexivity].
      apply String.eqb_eq in E1. subst k0. now rewrite String.eqb_sym, E0.
Qed.

Lemma keys_append (key : string) (ds : Dataset)
    (hypercubes : list (string * list Dataset)) :
  map fst (hypercubes_append key ds hypercubes) =
  if existsb (String.eqb key) (map fst hypercubes)
  then map fst hypercubes
  else map fst hypercubes ++ [key].
Proof.
  induction hypercubes as [|[k0 l] rest IH]; simpl; [reflexivity|].
  rewrite (String.eqb_sym key k0).
  destruct (String.eqb k0 key); simpl; [reflexivity|].
  rewrite IH. now destruct (existsb _ _).
Qed.

Lemma group_of_absent (k : string) (hypercubes : list (string * list Dataset)) :
  ~ In k (map fst hypercubes) -> group_of k hypercubes = [].
Proof.
  induction hypercubes as [|[k0 l] rest IH]; simpl; [reflexivity|].
  intros Hn. destruct (String.eqb k0 k) eqn:E.
  - apply String.eqb_eq in E. tauto.
  - apply IH. tauto.
Qed.

Lemma group_of_present (k : string) (hypercubes : list (string * list Dataset)) :
  In k (map fst hypercubes) -> In (k, group_of k hypercubes) hypercubes.
Proof.
  induction hypercubes as [|[k0 l] rest IH]; simpl; [contradiction|].
  destruct (String.eqb k0 k) eqn:E.
  - apply String.eqb_eq in E. subst. now left.
  - apply String.eqb_neq in E. intros [?|?]; [congruence | right; auto].
Qed.

Lemma well_grouped_append (key : string) (ds : Dataset)
    (hypercubes : list (string * list Dataset)) :
  well_grouped hypercubes -> well_grouped (hypercubes_append key ds hypercubes).
Proof.
  intros [Hnd Hgr]. split.
  - rewrite keys_append. destruct (existsb _ _) eqn:E; [exact Hnd|].
    apply NoDup_app; [exact Hnd | repeat constructor; intros [] |].
    intros x Hx [<-|[]].
    assert (existsb (String.eqb key) (map fst hypercubes) = true)
      by (apply existsb_exists; exists key; split; [exact Hx | apply String.eqb_refl]).
    congruence.
  - intros k l Hin.
    assert (Hk : In k (map fst (hypercubes_append key ds hypercubes)))
      by (apply in_map_iff; exists (k, l); auto).
    assert (Hnd' : NoDup (map fst (hypercubes_append key ds hypercubes))).
    { rewrite keys_append. destruct (existsb _ _) eqn:E; [exact Hnd|].
      apply NoDup_app; [exact Hnd | repeat constructor; intros [] |].
      intros x Hx [<-|[]].
      assert (existsb (String.eqb key) (map fst hypercubes) = true)
        by (apply existsb_exists; exists key; split; [exact Hx | apply String.eqb_refl]).
      congruence. }
    assert (Hl : l = group_of k (hypercubes_append key ds hypercubes)).
    { pose proof (group_of_present k _ Hk) as Hp.
      clear - Hin Hp Hnd'.
      induction (hypercubes_append key ds hypercubes) as [|[k0 l0] rest IH];
        [contradiction|].
      simpl in *. inversion Hnd' as [|? ? Hnot Hnd'']; subst.
      destruct (String.eqb k0 k) eqn:E.
      - apply String.eqb_eq in E. subst k0.
        destruct Hin as [Heq|Hin]; [congruence|].
        exfalso. apply Hnot. apply in_map_iff. exists (k, l). auto.
      - apply String.eqb_neq in E.
        destruct Hin as [Heq|Hin]; [congruence|].
        destruct Hp as [Heq|Hp]; [congruence|]. auto. }
    split; [|exact Hl]. rewrite Hl, group_of_append.
    destruct (String.eqb key k) eqn:E; [now destruct (group_of k hypercubes)|].
    rewrite keys_append in Hk.
    assert (Hk0 : In k (map fst hypercubes)).
    { destruct (existsb _ _); [exact Hk|].
      apply in_app_or in Hk. destruct Hk as [Hk|[<-|[]]]; [exact Hk|].
      now rewrite String.eqb_refl in E. }
    apply (Hgr k). now apply group_of_present.
Qed.

Lemma has_key_eq (k : string) (ds : Dataset) :
  level_key ds = inr k -> forall k', has_key level_key k' ds = String.eqb k k'.
Proof. intros H k'. unfold has_key. now rewrite H. Qed.

Lemma group_many_spec (l : list Dataset) (hc hc' : list (string * list Dataset)) :
  group_many Dataset level_key l hc = inr hc' ->
  well_grouped hc ->
  well_grouped hc' /\
  (forall k, group_of k hc' = group_of k hc ++ filter (has_key level_key k) l) /\
  Forall (fun ds => exists k, level_key ds = inr k) l.
Proof.
  revert hc; induction l as [|ds l IH]; intros hc; simpl.
  - intros Heq Hwg; inversion Heq; subst. split; [exact Hwg|].
    split; [intros k; now rewrite app_nil_r | constructor].
  - destruct (level_key ds) as [e|key] eqn:Hkey; simpl; [discriminate|].
    intros Heq Hwg.
    destruct (IH _ Heq (well_grouped_append key ds hc Hwg)) as (Hwg' & Hgr & Hall).
    split; [exact Hwg'|]. split; [|constructor; eauto].
    intros k. rewrite Hgr, group_of_append, (has_key_eq key ds Hkey k).
    destruct (String.eqb key k); [now rewrite <- app_assoc | reflexivity].
Qed.

Lemma group_all_spec (ds_list : list (opened Dataset))
    (hc hc' : list (string * list Dataset)) :
  group_all Dataset level_key ds_list hc = inr hc' ->
  well_grouped hc ->
  well_grouped hc' /\
  (forall k, group_of k hc' =
             group_of k hc ++ filter (has_key level_key k) (datasets_of ds_list)) /\
  Forall (fun ds => exists k, level_key ds = inr k) (datasets_of ds_list) /\
  Forall (fun o => match o with Unknown _ => False | _ => True end) ds_list.
Proof.
  revert hc; induction ds_list as [|[l|ds|v] rest IH]; intros hc; simpl.
  - intros Heq Hwg; inversion Heq; subst. split; [exact Hwg|].
    split; [intros k; now rewrite app_nil_r | split; constructor].
  - destruct (group_many Dataset level_key l hc) as [e|hc1] eqn:Hmany; simpl;
      [discriminate|].
    intros Heq Hwg.
    destruct (group_many_spec _ _ _ Hmany Hwg) as (Hwg1 & Hgr1 & Hall1).
    destruct (IH _ Heq Hwg1) as (Hwg' & Hgr & Hall & Hknown).
    split; [exact Hwg'|]. split; [|split].
    + intros k. rewrite Hgr, Hgr1, filter_app. now rewrite <- app_assoc.
    + apply Forall_app. split; assumption.
    + constructor; [exact I | exact Hknown].
  - destruct (level_key ds) as [e|key] eqn:Hkey; simpl; [discriminate|].
    intros Heq Hwg.
    destruct (IH _ Heq (well_grouped_append key ds hc Hwg)) as (Hwg' & Hgr & Hall & Hknown).
    split; [exact Hwg'|]. split; [|split].
    + intros k. rewrite Hgr, group_of_append, (has_key_eq key ds Hkey k).
      destruct (String.eqb key k); [now rewrite <- app_assoc | reflexivity].
    + constructor; eauto.
    + constructor; [exact I | exact Hknown].
  - discriminate.
Qed.

(** X17.  The hypercube groups.  When the grouping loop of [xarray]
    finishes, the keys of [hypercubes] are distinct, no group is empty,
    and the group of a key is exactly the gathered datasets with that
    level key, in the order they were gathered; every gathered dataset is
    in the group of its key. *)
Theorem xarray_groups :
  forall ds_list hypercubes,
    group_all Dataset level_key ds_list [] = inr hypercubes ->
    NoDup (map fst hypercubes) /\
    (forall k l,
        In (k, l) hypercubes <->
        (l <> [] /\ l = filter (has_key level_key k) (datasets_of ds_list))) /\
    (forall ds, In ds (datasets_of ds_list) ->
                exists k l, In (k, l) hypercubes /\ In ds l /\ level_key ds = inr k).
Proof.
  intros ds_list hypercubes Hgroup.
  assert (Hwg0 : well_grouped (@nil (string * list Dataset)))
    by (split; [constructor | intros ? ? []]).
  destruct (group_all_spec _ _ _ Hgroup Hwg0) as ((Hnd & Hgr) & Hof & Hall & _).
  simpl in Hof.
  assert (Hiff : forall k l,
             In (k, l) hypercubes <->
             (l <> [] /\ l = filter (has_key level_key k) (datasets_of ds_list))).
  { intros k l. rewrite <- Hof. split.
    - apply Hgr.
    - intros (Hne & ->).
      apply group_of_present.
      destruct (in_dec string_dec k (map fst hypercubes)) as [Hin|Hnin]; [exact Hin|].
      now rewrite group_of_absent in Hne. }
  split; [exact Hnd|]. split; [exact Hiff|].
  intros ds Hin. rewrite Forall_forall in Hall.
  destruct (Hall ds Hin) as (k & Hk).
  exists k, (filter (has_key level_key k) (datasets_of ds_list)).
  assert (Hds : In ds (filter (has_key level_key k) (datasets_of ds_list))).
  { apply filter_In. split; [exact Hin|].
    rewrite (has_key_eq k ds Hk). apply String.eqb_refl. }
  split; [|split; [exact Hds | exact Hk]].
  apply Hiff. split; [|reflexivity].
  intros Hnil. rewrite Hnil in Hds. contradiction.
Qed.

Lemma results_inv {A} (completed : list (exn + A)) (rs : list A) :
  results completed = inr rs ->
  completed = map inr rs /\ failures completed = [] /\ successes completed = rs.
Proof.
  revert rs; induction completed as [|[e|r] rest IH]; intros rs; simpl.
  - intros Heq; inversion Heq; auto.
  - discriminate.
  - destruct (results rest) as [e|rs']; simpl; [discriminate|].
    intros Heq; inversion Heq; subst.
    destruct (IH rs' eq_refl) as (-> & Hf & Hs).
    rewrite (proj1 (successes_all rs')), (proj2 (successes_all rs')). auto.
Qed.

Lemma merge_all_length (fxx : pyval) (hc : list (string * list Dataset))
    (dss : list Dataset) :
  merge_all Dataset step_key time_key combine_nested squeeze fxx hc = inr dss ->
  List.length dss = List.length hc.
Proof.
  revert dss; induction hc as [|[k l] hc IH]; intros dss; simpl.
  - intros Heq; inversion Heq; reflexivity.
  - destruct (merge_group _ _ _ _ _ _ _) as [e|ds]; simpl; [discriminate|].
    destruct (merge_all _ _ _ _ _ _ _) as [e|dss']; simpl; [discriminate|].
    intros Heq; inversion Heq; subst. simpl. now rewrite (IH dss' eq_refl).
Qed.


(** What a returning call of [xarray] went through. *)
Lemma xarray_returns_inv :
  forall self search max_threads sched L dss L',
    xarray Dataset H_xarray level_key step_key time_key combine_nested squeeze
      self search max_threads sched L = (inr dss, L') ->
    failures (map (fun H => H_xarray H search) (self_file_exists self)) = [] /\
    exists ds_list hypercubes,
      Permutation ds_list
        (successes (map (fun H => H_xarray H search) (self_file_exists self))) /\
      (max_threads = None \/ max_threads = Some 0 ->
       ds_list = successes (map (fun H => H_xarray H search) (self_file_exists self))) /\
      group_all Dataset level_key ds_list [] = inr hypercubes /\
      merge_all Dataset step_key time_key combine_nested squeeze
        (self_fxx self) hypercubes = inr dss /\
      List.length dss = List.length hypercubes.
Proof.
  intros self search max_threads sched L dss L'.
  set (futures := map (fun H => H_xarray H search) (self_file_exists self)).
  assert (Htail : forall (r : exn + list (opened Dataset)) L0,
    bind (lift r) (fun ds_list =>
      bind (lift (group_all Dataset level_key ds_list [])) (fun hc =>
        lift (merge_all Dataset step_key time_key combine_nested squeeze
                (self_fxx self) hc))) L0 = (inr dss, L') ->
    exists ds_list hc, r = inr ds_list /\
      group_all Dataset level_key ds_list [] = inr hc /\
      merge_all Dataset step_key time_key combine_nested squeeze
        (self_fxx self) hc = inr dss).
  { intros r L0. unfold bind, lift.
    destruct r as [e|ds_list]; [discriminate|].
    destruct (group_all _ _ _ _) as [e|hc] eqn:Hg; [discriminate|].
    intros Heq; inversion Heq. exists ds_list, hc. auto. }
  assert (Hseq :
    bind (lift (results futures)) (fun ds_list =>
      bind (lift (group_all Dataset level_key ds_list [])) (fun hc =>
        lift (merge_all Dataset step_key time_key combine_nested squeeze
                (self_fxx self) hc))) L = (inr dss, L') ->
    failures futures = [] /\
    exists ds_list hc,
      Permutation ds_list (successes futures) /\
      (max_threads = None \/ max_threads = Some 0 -> ds_list = successes futures) /\
      group_all Dataset level_key ds_list [] = inr hc /\
      merge_all Dataset step_key time_key combine_nested squeeze
        (self_fxx self) hc = inr dss /\
      List.length dss = List.length hc).
  { intros Hrun. destruct (Htail _ _ Hrun) as (ds_list & hc & Hres & Hg & Hm).
    destruct (results_inv _ _ Hres) as (_ & Hf & Hs).
    split; [exact Hf|]. exists ds_list, hc. rewrite Hs.
    repeat split; auto. eapply merge_all_length; eauto. }
  unfold xarray. fold futures.
  destruct max_threads as [n|]; [|exact Hseq].
  destruct (n =? 0) eqn:En; [exact Hseq|].
  apply Z.eqb_neq in En. intros Hrun.
  assert (Hpool : exists L0,
    bind (lift (results (as_completed sched futures))) (fun ds_list =>
      bind (lift (group_all Dataset level_key ds_list [])) (fun hc =>
        lift (merge_all Dataset step_key time_key combine_nested squeeze
                (self_fxx self) hc))) L0 = (inr dss, L')).
  { revert Hrun. unfold bind, lift, log, ThreadPoolExecutor.
    destruct (n <=? 0); [discriminate|]. eauto. }
  destruct Hpool as (L0 & Hpool).
  destruct (Htail _ _ Hpool) as (ds_list & hc & Hres & Hg & Hm).
  destruct (results_inv _ _ Hres) as (_ & Hf & Hs).
  pose proof (failures_Permutation _ _ (as_completed_Permutation sched futures)) as Pf.
  pose proof (successes_Permutation _ _ (as_completed_Permutation sched futures)) as Ps.
  rewrite Hf in Pf. rewrite Hs in Ps.
  split; [now apply Permutation_nil in Pf|].
  exists ds_list, hc. split; [exact Ps|]. split.
  - intros [Hn|Hn]; [discriminate | inversion Hn; lia].
  - repeat split; auto. eapply merge_all_length; eauto.
Qed.

(** X19.  [xarray] needs every file.  Unlike [download], [xarray] does
    not isolate failures: it returns only when every existing file was
    opened without an exception.  Its result then has one merged dataset
    per group of the opened values, taken in file order when sequential
    and in completion order with a pool. *)
Theorem xarray_needs_every_file :
  forall self search max_threads sched L dss L',
    xarray Dataset H_xarray level_key step_key time_key combine_nested squeeze
      self search max_threads sched L = (inr dss, L') ->
    failures (map (fun H => H_xarray H search) (self_file_exists self)) = [] /\
    exists ds_list hypercubes,
      Permutation ds_list
        (successes (map (fun H => H_xarray H search) (self_file_exists self))) /\
      (max_threads = None \/ max_threads = Some 0 ->
       ds_list = successes (map (fun H => H_xarray H search) (self_file_exists self))) /\
      group_all Dataset level_key ds_list [] = inr hypercubes /\
      merge_all Dataset step_key time_key combine_nested squeeze
        (self_fxx self) hypercubes = inr dss /\
      List.length dss = List.length hypercubes.
Proof. exact xarray_returns_inv. Qed.

End XarrayProperties.

Lemma xarray_groups_witness :
  NoDup ["surface_0"; "isobaricInhPa_500"]%string /\
  (In ("surface_0"%string,
       [[("surface_0"%string, 1, 0)]; [("surface_0"%string, 1, 12)]])
      [("surface_0"%string,
        [[("surface_0"%string, 1, 0)]; [("surface_0"%string, 1, 12)]]);
       ("isobaricInhPa_500"%string, [[("isobaricInhPa_500"%string, 1, 12)]])] <->
   [[("surface_0"%string, 1, 0)]; [("surface_0"%string, 1, 12)]] <> [] /\
   [[("surface_0"%string, 1, 0)]; [("surface_0"%string, 1, 12)]]
   = filter (has_key mock_level_key "surface_0")
       (datasets_of
          [Single [("surface_0"%string, 1, 0)];
           Multiple [[("isobaricInhPa_500"%string, 1, 12)];
                     [("surface_0"%string, 1, 12)]]])).
Proof.
  destruct (xarray_groups mock_Dataset mock_level_key
              [Single [("surface_0"%string, 1, 0)];
               Multiple [[("isobaricInhPa_500"%string, 1, 12)];
                         [("surface_0"%string, 1, 12)]]]
              _ eq_refl) as (Hnd & Hiff & _).
  split; [exact Hnd|]. apply Hiff.
Defined.


Lemma xarray_needs_every_file_witness :
  failures (map (fun H => mock_xarray H None) (self_file_exists mock_batch)) = [] /\
  exists ds_list hypercubes,
    Permutation ds_list
      (successes (map (fun H => mock_xarray H None) (self_file_exists mock_batch))) /\
    (Some 8 = None \/ Some 8 = Some 0 ->
     ds_list = successes (map (fun H => mock_xarray H None)
                              (self_file_exists mock_batch))) /\
    group_all mock_Dataset mock_level_key ds_list [] = inr hypercubes /\
    merge_all mock_Dataset mock_step_key mock_time_key mock_combine_nested
      mock_squeeze (self_fxx mock_batch) hypercubes
    = inr [[("isobaricInhPa_500"%string, 1, 12); ("isobaricInhPa_500"%string, 2, 12)];
           [("surface_0"%string, 1, 0); ("surface_0"%string, 1, 12);
            ("surface_0"%string, 2, 0); ("surface_0"%string, 2, 12)]] /\
    2%nat = List.length hypercubes.
Proof.
  exact (xarray_needs_every_file mock_Dataset mock_xarray mock_level_key
           mock_step_key mock_time_key mock_combine_nested mock_squeeze
           mock_batch None (Some 8) [3; 1]%nat [] _ _ eq_refl).
Defined.

(** ** The grid handed to [combine_nested] *)

Lemma StronglySorted_impl {A} (P Q : A -> A -> Prop) (l : list A) :
  (forall a b, P a b -> Q a b) -> StronglySorted P l -> StronglySorted Q l.
Proof.
  intros HPQ. induction 1 as [|a l Hs IH Ha]; constructor; [exact IH|].
  eapply Forall_impl; [|exact Ha]. auto.
Qed.

Lemma StronglySorted_with {A} (P : A -> A -> Prop) (Q : A -> Prop) (l : list A) :
  StronglySorted P l -> Forall Q l ->
  StronglySorted (fun a b => P a b /\ Q a /\ Q b) l.
Proof.
  induction 1 as [|a l Hs IH Ha]; intros HQ; [constructor|].
  inversion HQ as [|? ? Hqa Hql]; subst. constructor; [auto|].
  rewrite Forall_forall in *. auto.
Qed.

Lemma StronglySorted_map {A B} (f : A -> B) (P : B -> B -> Prop) (l : list A) :
  StronglySorted (fun a b => P (f a) (f b)) l <-> StronglySorted P (map f l).
Proof.
  induction l as [|a l IH]; simpl; split; intros Hs; try constructor;
    inversion Hs as [|? ? Hs' Ha]; subst.
  - now apply IH.
  - rewrite Forall_forall in *. intros b Hb.
    apply in_map_iff in Hb. destruct Hb as (x & <- & Hx). auto.
  - now apply IH.
  - rewrite Forall_forall in *. intros x Hx. apply Ha. now apply in_map.
Qed.

(** The second of two stable sorts, on elements that carry their key:
    elements with equal keys keep the order [R] they came in. *)
Lemma insert_by_fst_lex {A} (R : A -> A -> Prop) (x : Z * A) (l : list (Z * A)) :
  StronglySorted (fun p q => fst p < fst q \/ (fst p = fst q /\ R (snd p) (snd q))) l ->
  Forall (fun y => R (snd x) (snd y)) l ->
  StronglySorted (fun p q => fst p < fst q \/ (fst p = fst q /\ R (snd p) (snd q)))
                 (insert_by fst x l).
Proof.
  induction 1 as [|y l Hs IH Hy]; intros Hx; simpl.
  - repeat constructor.
  - inversion Hx as [|? ? Hxy Hxl]; subst.
    destruct (fst x <=? fst y) eqn:E.
    + apply Z.leb_le in E. constructor; [now constructor|].
      constructor;
        [destruct (Z.eq_dec (fst x) (fst y)); [right; auto | left; lia]|].
      rewrite Forall_forall in *. intros z Hz.
      specialize (Hy z Hz). specialize (Hxl z Hz).
      assert (fst y <= fst z) by (destruct Hy as [?|[? _]]; lia).
      destruct (Z.eq_dec (fst x) (fst z)); [right; auto | left; lia].
    + apply Z.leb_gt in E. constructor; [now apply IH|].
      rewrite insert_by_Permutation. constructor; [left; lia | exact Hy].
Qed.

Lemma sort_by_fst_lex {A} (R : A -> A -> Prop) (l : list (Z * A)) :
  StronglySorted (fun p q => R (snd p) (snd q)) l ->
  StronglySorted (fun p q => fst p < fst q \/ (fst p = fst q /\ R (snd p) (snd q)))
                 (sort_by fst l).
Proof.
  induction 1 as [|x l Hs IH Hx]; simpl; [constructor|].
  apply insert_by_fst_lex; [exact IH|].
  now rewrite sort_by_Permutation.
Qed.

Lemma keys_of_inv {A} (key : A -> exn + Z) (l : list A) (ks : list (Z * A)) :
  keys_of key l = inr ks ->
  map snd ks = l /\ Forall (fun p => key (snd p) = inr (fst p)) ks.
Proof.
  revert ks; induction l as [|x l IH]; intros ks; simpl.
  - intros Heq; inversion Heq; auto.
  - destruct (key x) as [e|k] eqn:Hk; simpl; [discriminate|].
    destruct (keys_of key l) as [e|ks']; simpl; [discriminate|].
    intros Heq; inversion Heq; subst.
    destruct (IH ks' eq_refl) as (Hmap & Hall).
    simpl. split; [now rewrite Hmap | constructor; auto].
Qed.

(** The rows cut by [[l[x : x + L] for x in range(0, len(l), L)]]. *)
Lemma slices_spec {A} (l : list A) (L : Z) :
  0 < L ->
  List.concat (map (fun x => slice l x L)
                   (range_elems 0 (Z.of_nat (List.length l)) L)) = l /\
  Forall (fun row => (0 < List.length row)%nat /\ Z.of_nat (List.length row) <= L)
         (map (fun x => slice l x L) (range_elems 0 (Z.of_nat (List.length l)) L)).
Proof.
  intros Hpos.
  set (n := Z.of_nat (List.length l)).
  set (m := Z.to_nat L).
  set (k := Z.to_nat (range_len 0 n L)).
  assert (Hgrid : map (fun x => slice l x L) (range_elems 0 n L)
                  = map (fun i => firstn m (skipn (i * m) l)) (seq 0 k)).
  { unfold range_elems. rewrite map_map. apply map_ext. intros i.
    unfold slice. do 2 f_equal. rewrite Z.add_0_l, Z2Nat.inj_mul by lia.
    now rewrite Nat2Z.id. }
  rewrite Hgrid.
  assert (Hk : n = 0 /\ k = 0%nat \/ 0 < n /\ Z.of_nat k = (n - 1) / L + 1).
  { unfold k, range_len.
    replace (0 <? L) with true by (symmetry; now apply Z.ltb_lt).
    destruct (0 <? n) eqn:En.
    - apply Z.ltb_lt in En. right. split; [exact En|].
      replace (n - 0 - 1) with (n - 1) by lia.
      assert (0 <= (n - 1) / L) by (apply Z.div_pos; lia). lia.
    - apply Z.ltb_ge in En. left. unfold n in *. split; [lia | reflexivity]. }
  split.
  - apply chunks_concat.
    destruct Hk as [[Hn _]|[Hn Hk]]; [unfold n in Hn; lia|].
    pose proof (Z.mul_succ_div_gt (n - 1) L ltac:(lia)) as Hgt.
    unfold n, m in *. nia.
  - rewrite Forall_forall. intros row Hin.
    apply in_map_iff in Hin. destruct Hin as (i & <- & Hi). apply in_seq in Hi.
    rewrite length_firstn, length_skipn. split; [|unfold m; lia].
    assert (Hstart : (i * m < List.length l)%nat).
    { destruct Hk as [[_ Hk]|[Hn Hk]]; [lia|].
      pose proof (Z.mul_div_le (n - 1) L ltac:(lia)) as Hle.
      unfold n, m in *. nia. }
    unfold m in *. lia.
Qed.

(** X20.  What is merged for one group.  When the merge of a group
    returns, the grid given to [combine_nested] holds the datasets of the
    group, each once; read row by row it is in run-time order and, for
    equal run times, in step order; no row is empty or longer than
    [len(self.fxx)].  The result is the [squeeze] of the combination with
    [combine_attrs="drop_conflicts"], or, if that raised, of the
    combination without it. *)
Theorem merge_group_grid :
  forall Dataset (step_key time_key : Dataset -> exn + Z) combine_nested squeeze
         fxx l r,
    merge_group Dataset step_key time_key combine_nested squeeze fxx l = inr r ->
    exists L grid ds,
      len fxx = inr L /\ 0 < L /\
      Permutation (List.concat grid) l /\
      StronglySorted (time_step_le time_key step_key) (List.concat grid) /\
      Forall (fun row => (0 < List.length row)%nat /\ Z.of_nat (List.length row) <= L)
             grid /\
      (combine_nested grid true = inr ds \/
       ((exists e, combine_nested grid true = inl e) /\
        combine_nested grid false = inr ds)) /\
      r = squeeze ds.
Proof.
  intros Dataset step_key time_key combine_nested squeeze fxx l r.
  unfold merge_group, sort_by_key.
  destruct (keys_of step_key l) as [e|ks1] eqn:Hk1; simpl; [discriminate|].
  destruct (keys_of time_key (map snd (sort_by fst ks1))) as [e|ks2] eqn:Hk2; simpl;
    [discriminate|].
  destruct (len fxx) as [e|L] eqn:HL; simpl; [discriminate|].
  unfold range0. destruct (L =? 0) eqn:E0; simpl; [discriminate|].
  apply Z.eqb_neq in E0. pose proof (len_nonneg _ _ HL) as HL0.
  set (l2 := map snd (sort_by fst ks2)).
  set (grid := map (fun x => slice l2 x L)
                   (range_elems 0 (Z.of_nat (List.length l2)) L)).
  destruct (combine_or_fallback Dataset combine_nested grid) as [e|ds] eqn:Hc; simpl;
    [discriminate|].
  intros Heq; inversion Heq; subst r; clear Heq.
  destruct (keys_of_inv _ _ _ Hk1) as (Hm1 & Hq1).
  destruct (keys_of_inv _ _ _ Hk2) as (Hm2 & Hq2).
  destruct (slices_spec l2 L ltac:(lia)) as (Hcat & Hrows). fold grid in Hcat, Hrows.
  exists L, grid, ds. split; [reflexivity|]. split; [lia|]. rewrite Hcat.
  split; [|split; [|split; [exact Hrows|split; [|reflexivity]]]].
  - unfold l2. rewrite (sort_by_Permutation fst ks2), Hm2.
    now rewrite (sort_by_Permutation fst ks1), Hm1.
  - set (Rs := fun a b : Dataset =>
                 exists sa sb, step_key a = inr sa /\ step_key b = inr sb /\ sa <= sb).
    assert (Hs1 : StronglySorted Rs (map snd (sort_by fst ks1))).
    { apply (proj1 (StronglySorted_map snd Rs (sort_by fst ks1))).
      eapply StronglySorted_impl;
        [|apply StronglySorted_with;
          [apply (sort_by_sorted fst ks1) | rewrite sort_by_Permutation; exact Hq1]].
      intros p q (Hle & Hp & Hq). exists (fst p), (fst q). auto. }
    assert (Hq2' : Forall (fun p => time_key (snd p) = inr (fst p) /\
                                    exists s, step_key (snd p) = inr s) ks2).
    { rewrite Forall_forall in *. intros x Hx. split; [now apply Hq2|].
      assert (Hx' : In (snd x) (map snd (sort_by fst ks1)))
        by (rewrite <- Hm2; now apply in_map).
      apply in_map_iff in Hx'. destruct Hx' as (y & Hy & Hyin).
      rewrite sort_by_Permutation in Hyin.
      exists (fst y). rewrite <- Hy. now apply Hq1. }
    rewrite <- Hm2 in Hs1. apply (proj2 (StronglySorted_map snd Rs ks2)) in Hs1.
    apply sort_by_fst_lex in Hs1.
    unfold l2.
    apply (proj1 (StronglySorted_map snd (time_step_le time_key step_key)
                    (sort_by fst ks2))).
    eapply StronglySorted_impl;
      [|apply StronglySorted_with;
        [exact Hs1 | rewrite sort_by_Permutation; exact Hq2']].
    intros p q (Hlex & (Hp & sp & Hsp) & (Hq & sq & Hsq)).
    destruct Hlex as [Hlt | (Heq & sa & sb & Ha & Hb & Hle)].
    + exists (fst p), sp, (fst q), sq. repeat split; auto.
    + exists (fst p), sa, (fst q), sb. repeat split; auto.
  - unfold combine_or_fallback in Hc.
    destruct (combine_nested grid true) as [e|ds0] eqn:Ht.
    + right. split; [eauto | exact Hc].
    + left. congruence.
Qed.

Lemma merge_group_grid_witness :
  exists L grid ds,
    len (PyList [PyInt 0; PyInt 12]) = inr L /\ 0 < L /\
    Permutation (List.concat grid)
      [[("surface_0"%string, 2, 12)]; [("surface_0"%string, 1, 12)];
       [("surface_0"%string, 2, 0)]; [("surface_0"%string, 1, 0)]] /\
    StronglySorted (time_step_le mock_time_key mock_step_key) (List.concat grid) /\
    Forall (fun row => (0 < List.length row)%nat /\ Z.of_nat (List.length row) <= L)
           grid /\
    (mock_combine_nested grid true = inr ds \/
     ((exists e, mock_combine_nested grid true = inl e) /\
      mock_combine_nested grid false = inr ds)) /\
    [("surface_0"%string, 1, 0); ("surface_0"%string, 1, 12);
     ("surface_0"%string, 2, 0); ("surface_0"%string, 2, 12)] = mock_squeeze ds.
Proof.
  exact (merge_group_grid mock_Dataset mock_step_key mock_time_key
           mock_combine_nested mock_squeeze (PyList [PyInt 0; PyInt 12])
           [[("surface_0"%string, 2, 12)]; [("surface_0"%string, 1, 12)];
            [("surface_0"%string, 2, 0)]; [("surface_0"%string, 1, 0)]]
           _ eq_refl).
Defined.

(** X21.  [xarray] with nothing to read.  On a batch without existing
    file, [xarray] returns the empty list: sequentially without logging
    anything, and with a pool of [n > 0] workers after the line on the
    number of tasks.  ([inventory] raises on such a batch, [download]
    returns the empty list.) *)
Theorem xarray_no_file :
  forall Dataset H_xarray level_key step_key time_key combine_nested squeeze
         self search sched L,
    self_file_exists self = [] ->
    xarray Dataset H_xarray level_key step_key time_key combine_nested squeeze
      self search None sched L = (inr [], L) /\
    forall n,
      0 < n ->
      xarray Dataset H_xarray level_key step_key time_key combine_nested squeeze
        self search (Some n) sched L
      = (inr [], L ++ [Info_working (self_tasks self) (Z.min (self_tasks self) n)]).
Proof.
  intros Dataset H_xarray level_key step_key time_key combine_nested squeeze
         self search sched L Hnil.
  unfold xarray. rewrite Hnil. split; [reflexivity|].
  intros n Hn. unfold bind, lift, log, ThreadPoolExecutor.
  replace (n =? 0) with false by (symmetry; apply Z.eqb_neq; lia).
  replace (n <=? 0) with false by (symmetry; apply Z.leb_gt; lia).
  reflexivity.
Qed.

Lemma xarray_no_file_witness :
  xarray mock_Dataset mock_xarray mock_level_key mock_step_key mock_time_key
    mock_combine_nested mock_squeeze
    {| self_DATES := PyList [PyDatetime 1];
       self_fxx := PyList [PyInt 60];
       self_tasks := 1;
       self_objects := [{| H_date := 1; H_fxx := 60; H_grib := None |}];
       self_file_exists := [];
       self_file_not_exists := [{| H_date := 1; H_fxx := 60; H_grib := None |}] |}
    None None [] [] = (inr [], []).
Proof.
  apply (xarray_no_file mock_Dataset mock_xarray mock_level_key mock_step_key
           mock_time_key mock_combine_nested mock_squeeze). reflexivity.
Defined.

(** X22.  What [xarray] accepts from the files.  When [xarray] returns,
    every value the files returned was a list or a dataset -- anything
    else ends the call with [NotImplementedError] -- and the level key of
    every dataset gathered from them could be computed. *)
Theorem xarray_accepts_lists_and_datasets :
  forall Dataset H_xarray level_key step_key time_key combine_nested squeeze
         self search max_threads sched L dss L',
    xarray Dataset H_xarray level_key step_key time_key combine_nested squeeze
      self search max_threads sched L = (inr dss, L') ->
    forall o,
      In (inr o) (map (fun H => H_xarray H search) (self_file_exists self)) ->
      match o with
      | Unknown _ => False
      | Single ds => exists k, level_key ds = inr k
      | Multiple l => forall ds, In ds l -> exists k, level_key ds = inr k
      end.
Proof.
  intros Dataset H_xarray level_key step_key time_key combine_nested squeeze
         self search max_threads sched L dss L' Hrun o Hin.
  destruct (xarray_returns_inv _ _ _ _ _ _ _ _ _ _ _ _ _ _ Hrun)
    as (_ & ds_list & hc & Hperm & _ & Hgroup & _).
  assert (Hwg0 : well_grouped (@nil (string * list Dataset)))
    by (split; [constructor | intros ? ? []]).
  destruct (group_all_spec _ _ _ _ _ Hgroup Hwg0) as (_ & _ & Hkeys & Hknown).
  apply In_successes in Hin.
  eapply Permutation_in in Hin; [|symmetry; exact Hperm].
  rewrite Forall_forall in Hkeys, Hknown.
  specialize (Hknown o Hin).
  destruct o as [l|ds|v]; [| |exact Hknown].
  - intros ds Hds. apply Hkeys. unfold datasets_of. apply in_flat_map.
    exists (Multiple l). auto.
  - apply Hkeys. unfold datasets_of. apply in_flat_map.
    exists (Single ds). split; [exact Hin | now left].
Qed.

Lemma xarray_accepts_lists_and_datasets_witness :
  exists k, mock_level_key [("surface_0"%string, 1, 0)] = inr k.
Proof.
  exact (xarray_accepts_lists_and_datasets mock_Dataset mock_xarray mock_level_key
           mock_step_key mock_time_key mock_combine_nested mock_squeeze
           mock_batch None None [] [] _ _ eq_refl
           (Single [("surface_0"%string, 1, 0)]) (or_introl eq_refl)).
Defined.
